(** * seo-analyzer: a shallow embedding of src/index.js

    The crawler keeps one mutable object, [pagesVisited], that maps a URL to
    the details recorded for it.  Below, that object is an association list
    in insertion order (the order a JavaScript [for ... in] loop walks string
    keys), the crawler queue is the list of URLs handed to [crawler.queue],
    and every function of the source that reads or writes them takes the
    state and returns the new one.  A call that can throw returns an
    [Outcome].  Console output is not modelled.

    What the source takes from outside is a parameter: the clock ([now]),
    the time value of a date string, the URL parser, [Path.dirname], the
    queue size the crawler reports, and the document and term matrix of a
    response.

    Strings are Rocq strings (sequences of bytes); case folding and trimming
    are the ASCII parts of the JavaScript operations.  Counts and scores are
    integers. *)

From Stdlib Require Import String Ascii List ZArith Lia Bool DecimalString.
From Stdlib Require Import Permutation Sorted.
Import ListNotations.
Open Scope string_scope.
Open Scope Z_scope.

(** ** JavaScript string operations used by the source *)

Module JS.

(** [s.substr(0, n)] *)
Definition substr0 (n : nat) (s : string) : string := substring 0 n s.

(** [s.startsWith(p)] *)
Definition startsWith (s p : string) : bool := prefix p s.

(** [s[0] == c]; [s[0]] is [undefined] on the empty string *)
Definition firstIs (c : ascii) (s : string) : bool :=
  match s with
  | EmptyString => false
  | String c0 _ => Ascii.eqb c0 c
  end.

(** [v == undefined] *)
Definition isUndefined {A : Type} (v : option A) : bool :=
  match v with
  | Some _ => false
  | None => true
  end.

Definition lowerChar (c : ascii) : ascii :=
  let n := nat_of_ascii c in
  if (Nat.leb 65 n && Nat.leb n 90)%bool then ascii_of_nat (n + 32) else c.

(** [s.toLowerCase()] on ASCII letters *)
Fixpoint toLowerCase (s : string) : string :=
  match s with
  | EmptyString => EmptyString
  | String c r => String (lowerChar c) (toLowerCase r)
  end.

(** [s.split(sep)] for a one-character separator: the pieces between the
    separators, empty pieces included; the result is never empty. *)
Fixpoint splitOn (sep : ascii) (s : string) : list string :=
  match s with
  | EmptyString => [EmptyString]
  | String c r =>
      if Ascii.eqb c sep then EmptyString :: splitOn sep r
      else match splitOn sep r with
           | [] => [String c EmptyString]
           | w :: ws => String c w :: ws
           end
  end.

Definition split_space (s : string) : list string := splitOn " "%char s.

(** [s.replace(a, b)] with a string pattern of one character: only the
    first occurrence is replaced. *)
Fixpoint replaceFirst (a b : ascii) (s : string) : string :=
  match s with
  | EmptyString => EmptyString
  | String c r => if Ascii.eqb c a then String b r else String c (replaceFirst a b r)
  end.

Definition isSpace (c : ascii) : bool :=
  let n := nat_of_ascii c in
  (Nat.eqb n 32 || (Nat.leb 9 n && Nat.leb n 13))%bool.

Fixpoint trimStart (s : string) : string :=
  match s with
  | EmptyString => EmptyString
  | String c r => if isSpace c then trimStart r else s
  end.

Fixpoint trimEnd (s : string) : string :=
  match s with
  | EmptyString => EmptyString
  | String c r =>
      match trimEnd r with
      | EmptyString => if isSpace c then EmptyString else String c EmptyString
      | r' => String c r'
      end
  end.

(** [s.trim()] *)
Definition trim (s : string) : string := trimEnd (trimStart s).

(** [list.indexOf(w) >= 0] *)
Definition includes (l : list string) (w : string) : bool :=
  existsb (String.eqb w) l.

(** Truthiness of a value that is a string or [undefined] *)
Definition truthy (v : option string) : bool :=
  match v with
  | Some s => negb (s =? "")%string
  | None => false
  end.

(** Truthiness of a value that is a boolean or [undefined] *)
Definition truthyB (v : option bool) : bool :=
  match v with
  | Some b => b
  | None => false
  end.

(** [v == n] for a value that is a number or [undefined] *)
Definition isNumber (v : option Z) (n : Z) : bool :=
  match v with
  | Some m => m =? n
  | None => false
  end.

(** The names every plain object inherits from [Object.prototype]: for
    these, [object[name]] is not [undefined] although the object has no such
    key of its own. *)
Definition inheritedNames : list string :=
  ["constructor"; "__defineGetter__"; "__defineSetter__"; "hasOwnProperty";
   "__lookupGetter__"; "__lookupSetter__"; "isPrototypeOf"; "propertyIsEnumerable";
   "toString"; "valueOf"; "__proto__"; "toLocaleString"].

(** [l.indexOf(w)]: the first position of [w], or -1 *)
Fixpoint indexOf (l : list string) (w : string) : Z :=
  match l with
  | [] => -1
  | x :: r =>
      if (x =? w)%string then 0
      else let i := indexOf r w in if i <? 0 then -1 else i + 1
  end.

(** ["" + v] for a value that is a string or [undefined] *)
Definition toString (v : option string) : string :=
  match v with
  | Some s => s
  | None => "undefined"
  end.

(** Number to string, as in ["" + n] for an integer [n] *)
Definition numberToString (n : Z) : string :=
  NilZero.string_of_int (Z.to_int n).

End JS.

(** ** Data model *)

(** The configuration object ([defaultConfiguration] and its overrides). *)
Record Configuration := {
  protocol : string;
  host : string;
  startPage : string;
  subPathOnly : bool;
  saveToCSV : string;
  showReport : bool;
  debug : bool;
  basePath : string
}.

(** One entry of the list built by [sortWordsByFrequency]. *)
Record WordFrequency := {
  term : string;
  frequency : Z
}.

(** What the source reads of a text-miner [DocumentTermMatrix]:
    [vocabulary] and the single row [data[0]], one count per term. *)
Record DocumentTermMatrix := {
  vocabulary : list string;
  data0 : list Z
}.

(** The object stored in [pagesVisited].  A field that a JavaScript object
    may lack is an option, [None] standing for [undefined]. *)
Record PageDetails := {
  statusCode : option Z;
  queueTime : option Z;
  referrer : option string;
  analyze : option bool;
  pageScore : option Z;
  title : option string;
  description : option string;
  keywords : option string;
  headerOne : option string;
  lastModified : option string;
  product : option string;
  version : option string;
  terms : option DocumentTermMatrix;
  pageAnalysis : option string;
  wordFrequencyList : option (list WordFrequency);
  completeTime : option Z
}.

(** The empty object [{}]. *)
Definition emptyDetails : PageDetails :=
  {| statusCode := None; queueTime := None; referrer := None; analyze := None;
     pageScore := None; title := None; description := None; keywords := None;
     headerOne := None; lastModified := None; product := None; version := None;
     terms := None; pageAnalysis := None; wordFrequencyList := None;
     completeTime := None |}.

(** [pagesVisited]: keys in insertion order, each key once.  These are the
    properties the program stores; each contains [//], so none of them is a
    name that the object inherits from [Object.prototype].  Where the source
    looks up a string that a page supplies, in [cleanURL], the inherited
    names are taken into account there. *)
Definition PagesVisited := list (string * PageDetails).

Fixpoint pvGet (URL : string) (pv : PagesVisited) : option PageDetails :=
  match pv with
  | [] => None
  | (k, d) :: rest => if (k =? URL)%string then Some d else pvGet URL rest
  end.

(** [pagesVisited[URL] = d]: an existing key keeps its place, a new key goes
    last. *)
Fixpoint pvSet (URL : string) (d : PageDetails) (pv : PagesVisited) : PagesVisited :=
  match pv with
  | [] => [(URL, d)]
  | (k, d0) :: rest =>
      if (k =? URL)%string then (k, d) :: rest else (k, d0) :: pvSet URL d rest
  end.

(** [Object.keys(pagesVisited)] *)
Definition pvKeys (pv : PagesVisited) : list string := map fst pv.

(** Number of records stored under [URL]. *)
Definition pvCount (URL : string) (pv : PagesVisited) : nat :=
  count_occ string_dec (pvKeys pv) URL.

(** The state the crawl threads through every call: the record map and the
    URLs passed to [crawler.queue], oldest first. *)
Record Crawl := {
  pagesVisited : PagesVisited;
  queued : list string
}.

(** How a call ends: it returns, or a [TypeError] propagates out of it. *)
Inductive Outcome (A : Type) : Type :=
| Returned (a : A)
| TypeError.
Arguments Returned {A} a.
Arguments TypeError {A}.

(** ** The crawl frontier *)

(** The object literal built by [queueURLToCrawl]. *)
Definition newPageDetails (now : Z) (referrer : string) (analyze : bool) : PageDetails :=
  {| statusCode := Some (-1);
     queueTime := Some now;
     referrer := Some referrer;
     analyze := Some analyze;
     pageScore := Some 0;
     title := Some "";
     description := Some "";
     keywords := Some "";
     headerOne := Some "";
     lastModified := Some "";
     product := Some "";
     version := Some "";
     terms := None; pageAnalysis := None; wordFrequencyList := None;
     completeTime := None |}.

(** The key [queueURLToCrawl] uses for [URL]: a protocol-relative URL gets
    the configured protocol in front. *)
Definition queueKey (configuration : Configuration) (URL : string) : string :=
  if (JS.substr0 2 URL =? "//")%string then protocol configuration ++ URL else URL.

(** [queueURLToCrawl(crawler, URL, referrer, analyze)]; [now] is the value
    of [Date.now()]. *)
Definition queueURLToCrawl (configuration : Configuration) (now : Z)
    (URL referrer : string) (analyze : bool) (st : Crawl) : bool * Crawl :=
  let URL := queueKey configuration URL in
  match pvGet URL (pagesVisited st) with
  | None =>
      let pageDetails := newPageDetails now referrer analyze in
      (true, {| pagesVisited := pvSet URL pageDetails (pagesVisited st);
                queued := (queued st ++ [URL])%list |})
  | Some _ => (false, st)
  end.

(** ** The scoring engine *)

Definition specialWordFilter : list string :=
  [":"; "="; "=="; "{"; "}"; "|"; ";"; "("; ")"; "++"; "//"; "://"; "**"; "***"; "()"].

(** The loop of [sortWordsByFrequency]: pair each term that is not in
    [specialWordFilter] with its count, in the order of [wordList].  The two
    arrays of a term matrix have the same length. *)
Fixpoint combineWords (wordList : list string) (frequencyList : list Z)
    : list WordFrequency :=
  match wordList, frequencyList with
  | w :: ws, f :: fs =>
      if JS.includes specialWordFilter w then combineWords ws fs
      else {| term := w; frequency := f |} :: combineWords ws fs
  | _, _ => []
  end.

(** [Array.prototype.sort] with the comparator [b.frequency - a.frequency]:
    a stable sort, larger counts first. *)
Fixpoint insertByFrequency (a : WordFrequency) (sorted : list WordFrequency)
    : list WordFrequency :=
  match sorted with
  | [] => [a]
  | b :: rest =>
      if frequency b - frequency a <=? 0 then a :: sorted
      else b :: insertByFrequency a rest
  end.

Definition sortDescending (l : list WordFrequency) : list WordFrequency :=
  fold_right insertByFrequency [] l.

Definition sortWordsByFrequency (wordList : list string) (frequencyList : list Z)
    : list WordFrequency :=
  sortDescending (combineWords wordList frequencyList).

Definition boostFrequency (amount : Z) (crawledWord : WordFrequency) : WordFrequency :=
  {| term := term crawledWord; frequency := frequency crawledWord + amount |}.

(** The inner loop of the three boost blocks of [scorePage], for one boost
    word: every entry whose term equals [word] gets [amount] added to its
    frequency, and counts towards the score when its frequency was above 1. *)
Fixpoint boostTerms (amount : Z) (word : string) (wordFrequencyList : list WordFrequency)
    (pageScore boostedWordCount : Z) : list WordFrequency * Z * Z :=
  match wordFrequencyList with
  | [] => ([], pageScore, boostedWordCount)
  | crawledWord :: rest =>
      if (word =? term crawledWord)%string then
        let '(pageScore, boostedWordCount) :=
          if frequency crawledWord >? 1
          then (pageScore + amount, boostedWordCount + 1)
          else (pageScore, boostedWordCount) in
        let '(rest', pageScore, boostedWordCount) :=
          boostTerms amount word rest pageScore boostedWordCount in
        (boostFrequency amount crawledWord :: rest', pageScore, boostedWordCount)
      else
        let '(rest', pageScore, boostedWordCount) :=
          boostTerms amount word rest pageScore boostedWordCount in
        (crawledWord :: rest', pageScore, boostedWordCount)
  end.

(** What a boost block carries from one boost word to the next. *)
Record BoostState := {
  bWords : list WordFrequency;
  bScore : Z;
  bCount : Z;
  bHeader : Z
}.

(** One turn of the outer loop of a boost block.  [compared] is what the
    lower-cased word is compared with: the word itself for title and
    description, [word.trim()] for keywords. *)
Definition boostWord (amount : Z) (compared : string -> string)
    (headerOneWords : option (list string)) (b : BoostState) (boostWord : string)
    : BoostState :=
  let word := JS.toLowerCase boostWord in
  let '(wfl, pageScore, boostedWordCount) :=
    boostTerms amount (compared word) (bWords b) (bScore b) (bCount b) in
  {| bWords := wfl;
     bScore := pageScore;
     bCount := boostedWordCount;
     bHeader := match headerOneWords with
                | Some hs => bHeader b + (if JS.includes hs word then 1 else 0)
                | None => bHeader b
                end |}.

(** The outer loop: the boost words in order. *)
Definition boostWords (amount : Z) (compared : string -> string)
    (headerOneWords : option (list string)) (words : list string) (b : BoostState)
    : BoostState :=
  fold_left (boostWord amount compared headerOneWords) words b.

(** The local variables of [scorePage] that live across its blocks. *)
Record Scoring := {
  wordList : list WordFrequency;
  score : Z;
  analysis : string;
  headerWordsInTitle : Z;
  headerWordsInDescription : Z;
  headerWordsInKeywords : Z
}.

Definition startBoost (s : Scoring) : BoostState :=
  {| bWords := wordList s; bScore := score s; bCount := 0; bHeader := 0 |}.

(** [pageScore += delta; pageAnalysis += clause] *)
Definition judge (delta : Z) (clause : string) (s : Scoring) : Scoring :=
  {| wordList := wordList s;
     score := score s + delta;
     analysis := analysis s ++ clause;
     headerWordsInTitle := headerWordsInTitle s;
     headerWordsInDescription := headerWordsInDescription s;
     headerWordsInKeywords := headerWordsInKeywords s |}.

(** The string held by a field once it is known to be truthy. *)
Definition text (v : option string) : string :=
  match v with
  | Some t => t
  | None => ""
  end.

(** "boost title words by +2 when they appear in the body" *)
Definition titleRule (pageDetails : PageDetails) (headerOneWords : option (list string))
    (s : Scoring) : Scoring :=
  if JS.truthy (title pageDetails) then
    let b := boostWords 2 (fun word => word) headerOneWords
               (JS.split_space (text (title pageDetails))) (startBoost s) in
    {| wordList := bWords b;
       score := bScore b;
       analysis := analysis s ++
         (if bCount b >? 0
          then "good: " ++ JS.numberToString (bCount b) ++ " title words appear in body."
          else "bad: no title words appear in body.");
       headerWordsInTitle := headerWordsInTitle s + bHeader b;
       headerWordsInDescription := headerWordsInDescription s;
       headerWordsInKeywords := headerWordsInKeywords s |}
  else judge 0 "; very bad: no title." s.

(** "boost description words by +2 when they appear in the body" *)
Definition descriptionRule (pageDetails : PageDetails)
    (headerOneWords : option (list string)) (s : Scoring) : Scoring :=
  if JS.truthy (description pageDetails) then
    let b := boostWords 2 (fun word => word) headerOneWords
               (JS.split_space (text (description pageDetails))) (startBoost s) in
    {| wordList := bWords b;
       score := bScore b;
       analysis := analysis s ++
         (if bCount b >? 0
          then "; good: " ++ JS.numberToString (bCount b)
               ++ " description words appear in body."
          else "; bad: no description words appear in body.");
       headerWordsInTitle := headerWordsInTitle s;
       headerWordsInDescription := headerWordsInDescription s + bHeader b;
       headerWordsInKeywords := headerWordsInKeywords s |}
  else judge 0 "; very bad: no description." s.

(** [keywords.replace(',', ' ').split(' ')] *)
Definition keywordWords (k : string) : list string :=
  JS.split_space (JS.replaceFirst ","%char " "%char k).

(** "boost keyword words by +1 when they appear in the body" *)
Definition keywordRule (pageDetails : PageDetails)
    (headerOneWords : option (list string)) (s : Scoring) : Scoring :=
  if JS.truthy (keywords pageDetails) then
    let b := boostWords 1 JS.trim headerOneWords
               (keywordWords (text (keywords pageDetails))) (startBoost s) in
    {| wordList := bWords b;
       score := bScore b;
       analysis := analysis s ++
         (if bCount b >? 0
          then "; good: " ++ JS.numberToString (bCount b) ++ " keywords appear in body."
          else "; bad: no keywords appear in body.");
       headerWordsInTitle := headerWordsInTitle s;
       headerWordsInDescription := headerWordsInDescription s;
       headerWordsInKeywords := headerWordsInKeywords s + bHeader b |}
  else judge 0 "; very bad: no keywords." s.

(** "having product without version is bad" *)
Definition productRule (pageDetails : PageDetails) (s : Scoring) : Scoring :=
  if JS.truthy (product pageDetails) then
    if negb (JS.truthy (version pageDetails))
    then judge (-1) "; bad: page has product but missing version." s
    else judge 1 "; good: page has product and version." s
  else s.

(** "Test H1" *)
Definition headerRule (pageDetails : PageDetails) (s : Scoring) : Scoring :=
  if JS.truthy (headerOne pageDetails) then
    judge (1 + headerWordsInTitle s + headerWordsInDescription s + headerWordsInKeywords s)
      ("; good: page has H1, " ++ JS.numberToString (headerWordsInTitle s)
       ++ " in title, " ++ JS.numberToString (headerWordsInDescription s)
       ++ " in description, " ++ JS.numberToString (headerWordsInKeywords s)
       ++ " in keywords") s
  else judge (-1) "; bad: page missing H1." s.

(** [365 * 24 * 60 * 60 * 1000], one year in milliseconds *)
Definition oneYear : Z := 365 * 24 * 60 * 60 * 1000.

Section Scoring.

(** [new Date(s).valueOf()]: the time value in milliseconds of a date
    string, [None] when the string is no date (the time value is [NaN]). *)
Variable dateValue : string -> option Z.

(** "Test last-modified date is recent within one year"; [now] is
    [new Date().valueOf()].  A comparison with [NaN] is false. *)
Definition freshnessRule (now : Z) (pageDetails : PageDetails) (s : Scoring) : Scoring :=
  if JS.truthy (lastModified pageDetails) then
    let over :=
      match dateValue (text (lastModified pageDetails)) with
      | Some lastModified => now - lastModified >? oneYear
      | None => false
      end in
    if over
    then judge (-1) "; bad: page over 1 year old." s
    else judge 1 "; good: page is recent." s
  else judge (-2) "; bad: page missing last-modified." s.

(** The local variables of [scorePage] before its first block. *)
Definition startScoring (t : DocumentTermMatrix) : Scoring :=
  {| wordList := sortWordsByFrequency (vocabulary t) (data0 t);
     score := 0;
     analysis := "";
     headerWordsInTitle := 0;
     headerWordsInDescription := 0;
     headerWordsInKeywords := 0 |}.

(** [headerOneWords]: [null], or the words of a truthy [headerOne]. *)
Definition headerWords (pageDetails : PageDetails) : option (list string) :=
  if JS.truthy (headerOne pageDetails)
  then Some (JS.split_space (text (headerOne pageDetails)))
  else None.

(** The blocks of [scorePage] in the order of the source. *)
Definition scoreRules (now : Z) (pageDetails : PageDetails) (s : Scoring) : Scoring :=
  let headerOneWords := headerWords pageDetails in
  headerRule pageDetails
    (productRule pageDetails
      (freshnessRule now pageDetails
        (keywordRule pageDetails headerOneWords
          (descriptionRule pageDetails headerOneWords
            (titleRule pageDetails headerOneWords s))))).

(** The four assignments that end [scorePage]. *)
Definition storeScore (pageDetails : PageDetails) (s : Scoring) : PageDetails :=
  {| statusCode := statusCode pageDetails;
     queueTime := queueTime pageDetails;
     referrer := referrer pageDetails;
     analyze := analyze pageDetails;
     pageScore := Some (score s);
     title := title pageDetails;
     description := description pageDetails;
     keywords := keywords pageDetails;
     headerOne := headerOne pageDetails;
     lastModified := lastModified pageDetails;
     product := product pageDetails;
     version := version pageDetails;
     terms := None;
     pageAnalysis := Some (analysis s);
     wordFrequencyList := Some (wordList s);
     completeTime := completeTime pageDetails |}.

(** [scorePage(pageDetails)].  Reading [pageDetails.terms.vocabulary] when
    [terms] is [undefined] throws a [TypeError]. *)
Definition scorePage (now : Z) (pageDetails : PageDetails) : Outcome PageDetails :=
  if JS.truthyB (analyze pageDetails) then
    match terms pageDetails with
    | None => TypeError
    | Some t => Returned (storeScore pageDetails (scoreRules now pageDetails (startScoring t)))
    end
  else Returned pageDetails.

End Scoring.

(** ** The other helpers of the source *)

(** [arrayWordsInCommon(listOne, listTwo)].  A number is truthy unless it
    is 0, so [shorterList.indexOf(itemOne)] counts as true for every position
    but the first, and for -1. *)
Definition arrayWordsInCommon (listOne listTwo : list string) : Z :=
  let largerList :=
    if Nat.leb (length listTwo) (length listOne) then listOne else listTwo in
  let shorterList :=
    if Nat.ltb (length listOne) (length listTwo) then listTwo else listOne in
  fold_left
    (fun commonWordCount itemOne =>
       if negb (JS.indexOf shorterList itemOne =? 0)
       then commonWordCount + 1 else commonWordCount)
    largerList 0.

(** [frequencyToString(wordFrequencyList)] *)
Definition frequencyToString (wordFrequencyList : list WordFrequency) : string :=
  fold_left
    (fun orderedString word =>
       orderedString ++ (if (orderedString =? "")%string then "" else ", ")
       ++ term word ++ ": " ++ JS.numberToString (frequency word))
    wordFrequencyList "".

Module Entity.

Definition isDigit (c : ascii) : bool :=
  let n := nat_of_ascii c in (Nat.leb 48 n && Nat.leb n 57)%bool.

(** [[a-z0-9]] under the flag [i] *)
Definition isAlnum (c : ascii) : bool :=
  let n := nat_of_ascii c in
  (isDigit c || (Nat.leb 65 n && Nat.leb n 90) || (Nat.leb 97 n && Nat.leb n 122))%bool.

(** [[a-f0-9]] under the flag [i] *)
Definition isHex (c : ascii) : bool :=
  let n := nat_of_ascii c in
  (isDigit c || (Nat.leb 65 n && Nat.leb n 70) || (Nat.leb 97 n && Nat.leb n 102))%bool.

(** The number of leading characters of [s] that satisfy [f]: what a
    greedy [[...]+] takes. *)
Fixpoint span (f : ascii -> bool) (s : string) : nat :=
  match s with
  | EmptyString => O
  | String c r => if f c then S (span f r) else O
  end.

Definition nonzero (n : nat) : option nat :=
  match n with
  | O => None
  | S _ => Some n
  end.

(** The length of what [(?:#x[a-f0-9]+|#[0-9]+|[a-z0-9]+)] matches at the
    start of [s], the alternatives tried in order. *)
Definition bodyLength (s : string) : option nat :=
  match s with
  | String "#"%char r =>
      match r with
      | String x r' =>
          if ((Ascii.eqb x "x" || Ascii.eqb x "X") && Nat.ltb 0 (span isHex r'))%bool
          then Some (2 + span isHex r')%nat
          else option_map S (nonzero (span isDigit r))
      | EmptyString => None
      end
  | _ => nonzero (span isAlnum s)
  end.

(** [s] without its first [n] characters *)
Fixpoint drop (n : nat) (s : string) : string :=
  match n, s with
  | S k, String _ r => drop k r
  | _, _ => s
  end.

(** The length of the match of [entityRegEx] at the start of [s], if it
    matches there: an ampersand, the body, and a semicolon when one follows. *)
Definition matchLength (s : string) : option nat :=
  match s with
  | String "&"%char r =>
      match bodyLength r with
      | Some n => Some (1 + n + (if JS.firstIs ";" (drop n r) then 1 else 0))%nat
      | None => None
      end
  | _ => None
  end.

(** The global replace by the empty string, left to right: [skip] is the
    number of characters of the current match still to be dropped. *)
Fixpoint removeFrom (skip : nat) (s : string) : string :=
  match s with
  | EmptyString => EmptyString
  | String c r =>
      match skip with
      | S k => removeFrom k r
      | O =>
          match matchLength s with
          | Some n => removeFrom (n - 1) r
          | None => String c (removeFrom 0 r)
          end
      end
  end.

End Entity.

(** [cleanHTMLEntities(sourceString)] *)
Definition cleanHTMLEntities (sourceString : string) : string :=
  Entity.removeFrom 0 sourceString.

(** The rows [saveResultsToCSVFile] writes. *)
Module Csv.
Record Row := {
  url : string;
  status : option Z;
  score : option Z;
  title : option string;
  description : option string;
  keywords : option string;
  product : string;
  lastModified : option string;
  analysis : option string;
  terms : string
}.
End Csv.

(** The row of one record: only the URL and the status unless the record is
    analyzed.  A [for ... in] over [undefined] runs no turn, so a record
    without [wordFrequencyList] has the empty string for its terms. *)
Definition csvRow (URL : string) (pageDetails : PageDetails) : Csv.Row :=
  if JS.truthyB (analyze pageDetails) then
    {| Csv.url := URL;
       Csv.status := statusCode pageDetails;
       Csv.score := pageScore pageDetails;
       Csv.title := title pageDetails;
       Csv.description := description pageDetails;
       Csv.keywords := keywords pageDetails;
       Csv.product := JS.toString (product pageDetails) ++ " / "
                      ++ JS.toString (version pageDetails);
       Csv.lastModified := lastModified pageDetails;
       Csv.analysis := pageAnalysis pageDetails;
       Csv.terms := frequencyToString
                      match wordFrequencyList pageDetails with
                      | Some l => l
                      | None => []
                      end |}
  else
    {| Csv.url := URL;
       Csv.status := statusCode pageDetails;
       Csv.score := Some 0;
       Csv.title := Some "";
       Csv.description := Some "";
       Csv.keywords := Some "";
       Csv.product := "";
       Csv.lastModified := Some "";
       Csv.analysis := Some "";
       Csv.terms := "" |}.

(** [saveResultsToCSVFile()]: the records handed to the CSV writer, one per
    entry of [pagesVisited] in order, or nothing when no file is configured. *)
Definition saveResultsToCSVFile (configuration : Configuration) (pv : PagesVisited)
    : option (list Csv.Row) :=
  if Nat.ltb 0 (String.length (saveToCSV configuration))
  then Some (map (fun entry => csvRow (fst entry) (snd entry)) pv)
  else None.

(** ** URLs *)

(** The fields the source reads of a parsed URL (package url-parse). *)
Module URL.
Record Parts := {
  protocol : string;
  hostname : string;
  pathname : string
}.
End URL.

(** [/^\/?index\.(html|php|jsp)$/.test(p)] *)
Definition indexPattern (p : string) : bool :=
  JS.includes
    ["index.html"; "/index.html"; "index.php"; "/index.php"; "index.jsp"; "/index.jsp"] p.

(** What a fetched HTML document yields to [analyzePage]: the texts and
    attributes it selects, the [href] of every anchor of the body in document
    order, and the term matrix text-miner builds from the page corpus. *)
Record Document := {
  docTitle : string;
  metaDescription : option string;
  metaKeywords : option string;
  metaLastModified : option string;
  metaProduct : option string;
  headerOneText : string;
  anchors : list (option string);
  docTerms : DocumentTermMatrix
}.

(** The response handed to the crawler callback: [request.uri.href],
    [statusCode] and [$], which is absent when the body is not HTML. *)
Record Response := {
  href : string;
  status : Z;
  dollar : option Document
}.

(** The first two arguments of the callback: an error, or a response. *)
Inductive Fetched :=
| Failed
| Responded (response : Response).

Section Crawler.

Variable dateValue : string -> option Z.

(** [URLParse(address)] of package url-parse, called without a base. *)
Variable URLParse : string -> URL.Parts.

(** [Path.dirname(path)] of Node.js *)
Variable dirname : string -> string.

Variable configuration : Configuration.

(** [isIndexPage(URL)] *)
Definition isIndexPage (URL : string) : bool :=
  let URLParts := URLParse URL in
  (Nat.eqb (String.length (URL.pathname URLParts)) 0
   || (URL.pathname URLParts =? "/")%string
   || indexPattern (URL.pathname URLParts))%bool.

(** [makeURL(pathFromRoot)] *)
Definition makeURL (pathFromRoot : string) : string :=
  protocol configuration ++ "//" ++ host configuration ++ pathFromRoot.

(** [startURL()] *)
Definition startURL : string := makeURL (startPage configuration).

(** [isIntendedSubPath(URLParts)] *)
Definition isIntendedSubPath (URLParts : URL.Parts) : bool :=
  if (Nat.eqb (String.length (URL.hostname URLParts)) 0
      || (JS.toLowerCase (URL.hostname URLParts) =? host configuration)%string)%bool
  then
    if subPathOnly configuration then
      if JS.startsWith (URL.pathname URLParts) (basePath configuration)
      then true
      else false
    else true
  else false.

(** [cleanURL(proposedURL, currentURL, referrer)]; [proposedURL] is [None]
    for an anchor without [href].  The result is the URL to analyze, or
    [None] for [null].  The first lookup, [pagesVisited[proposedURL]], is
    made with the link as the page wrote it, which may be a name that
    [pagesVisited] inherits; the other two are made with URLs that contain
    [//]. *)
Definition cleanURL (now : Z) (proposedURL : option string) (currentURL referrer : string)
    (st : Crawl) : option string * Crawl :=
  match proposedURL with
  | None => (None, st)
  | Some proposedURL =>
      if (Nat.ltb 0 (String.length proposedURL)
          && negb (JS.firstIs "#" proposedURL)
          && negb (JS.firstIs "?" proposedURL))%bool
      then
        let proposedURL :=
          if (JS.substr0 2 proposedURL =? "//")%string
          then protocol configuration ++ proposedURL
          else proposedURL in
        let URLParts := URLParse proposedURL in
        if isIntendedSubPath URLParts then
          let realURL :=
            if negb (JS.firstIs "/" (URL.pathname URLParts))
            then makeURL (dirname currentURL ++ "/" ++ URL.pathname URLParts)
            else makeURL (URL.pathname URLParts) in
          if (negb (JS.isUndefined (pvGet proposedURL (pagesVisited st)))
              || JS.includes JS.inheritedNames proposedURL)%bool
          then (None, st)
          else if subPathOnly configuration then
            if (negb (JS.startsWith (URL.pathname URLParts) (basePath configuration))
                && JS.isUndefined (pvGet realURL (pagesVisited st)))%bool
            then (None, snd (queueURLToCrawl configuration now realURL referrer false st))
            else (Some realURL, st)
          else (Some realURL, st)
        else
          let protocol' :=
            if negb (JS.truthy (Some (URL.protocol URLParts)))
            then protocol configuration else URL.protocol URLParts in
          let hostname' :=
            if negb (JS.truthy (Some (URL.hostname URLParts)))
            then host configuration else URL.hostname URLParts in
          let proposedURL :=
            if isIndexPage proposedURL
            then protocol' ++ "//" ++ hostname' ++ "/"
            else protocol' ++ "//" ++ hostname' ++ URL.pathname URLParts in
          if JS.isUndefined (pvGet proposedURL (pagesVisited st))
          then (None, snd (queueURLToCrawl configuration now proposedURL referrer false st))
          else (None, st)
      else (None, st)
  end.

(** The loop of [adjustTermScores], over the entries of [pagesVisited] in
    insertion order.  A record whose [statusCode] is -1 is deleted; an
    analyzed record whose [pageScore] is 0 is scored in place.  When
    [scorePage] throws, the loop stops there and the rest of the map is left
    as it is. *)
Fixpoint adjustTermScores (now : Z) (pv : PagesVisited) : PagesVisited * Outcome unit :=
  match pv with
  | [] => ([], Returned tt)
  | (URL, pageDetails) :: rest =>
      if JS.isNumber (statusCode pageDetails) (-1) then adjustTermScores now rest
      else if (JS.truthyB (analyze pageDetails)
               && JS.isNumber (pageScore pageDetails) 0)%bool
      then
        match scorePage dateValue now pageDetails with
        | Returned scored =>
            let '(rest', outcome) := adjustTermScores now rest in
            ((URL, scored) :: rest', outcome)
        | TypeError => (pv, TypeError)
        end
      else
        let '(rest', outcome) := adjustTermScores now rest in
        ((URL, pageDetails) :: rest', outcome)
  end.

(** The body of the [each] callback of [analyzePage] for one anchor. *)
Definition followLink (now : Z) (currentPath proposedURL : string) (st : Crawl)
    (anchor : option string) : Crawl :=
  let '(href, st) := cleanURL now anchor currentPath proposedURL st in
  match href with
  | Some href => snd (queueURLToCrawl configuration now href proposedURL true st)
  | None => st
  end.

(** The assignments of [analyzePage] that copy the document into the
    record, up to [terms]. *)
Definition readDocument (pageDetails : PageDetails) (doc : Document) : PageDetails :=
  {| statusCode := statusCode pageDetails;
     queueTime := queueTime pageDetails;
     referrer := referrer pageDetails;
     analyze := analyze pageDetails;
     pageScore := pageScore pageDetails;
     title := Some (docTitle doc);
     description := metaDescription doc;
     keywords := metaKeywords doc;
     headerOne := Some (JS.toLowerCase (headerOneText doc));
     lastModified := metaLastModified doc;
     product := metaProduct doc;
     version := version pageDetails;
     terms := Some (docTerms doc);
     pageAnalysis := pageAnalysis pageDetails;
     wordFrequencyList := wordFrequencyList pageDetails;
     completeTime := completeTime pageDetails |}.

Definition setStatusCode (code : Z) (pageDetails : PageDetails) : PageDetails :=
  {| statusCode := Some code;
     queueTime := queueTime pageDetails;
     referrer := referrer pageDetails;
     analyze := analyze pageDetails;
     pageScore := pageScore pageDetails;
     title := title pageDetails;
     description := description pageDetails;
     keywords := keywords pageDetails;
     headerOne := headerOne pageDetails;
     lastModified := lastModified pageDetails;
     product := product pageDetails;
     version := version pageDetails;
     terms := terms pageDetails;
     pageAnalysis := pageAnalysis pageDetails;
     wordFrequencyList := wordFrequencyList pageDetails;
     completeTime := completeTime pageDetails |}.

Definition setAnalyzeFalse (pageDetails : PageDetails) : PageDetails :=
  {| statusCode := statusCode pageDetails;
     queueTime := queueTime pageDetails;
     referrer := referrer pageDetails;
     analyze := Some false;
     pageScore := pageScore pageDetails;
     title := title pageDetails;
     description := description pageDetails;
     keywords := keywords pageDetails;
     headerOne := headerOne pageDetails;
     lastModified := lastModified pageDetails;
     product := product pageDetails;
     version := version pageDetails;
     terms := terms pageDetails;
     pageAnalysis := pageAnalysis pageDetails;
     wordFrequencyList := wordFrequencyList pageDetails;
     completeTime := completeTime pageDetails |}.

Definition setCompleteTime (now : Z) (pageDetails : PageDetails) : PageDetails :=
  {| statusCode := statusCode pageDetails;
     queueTime := queueTime pageDetails;
     referrer := referrer pageDetails;
     analyze := analyze pageDetails;
     pageScore := pageScore pageDetails;
     title := title pageDetails;
     description := description pageDetails;
     keywords := keywords pageDetails;
     headerOne := headerOne pageDetails;
     lastModified := lastModified pageDetails;
     product := product pageDetails;
     version := version pageDetails;
     terms := terms pageDetails;
     pageAnalysis := pageAnalysis pageDetails;
     wordFrequencyList := wordFrequencyList pageDetails;
     completeTime := Some now |}.

(** The part of [analyzePage] that handles one response, up to the call of
    [done].  The record is an object shared with [pagesVisited]; between its
    first assignment and [pagesVisited[proposedURL] = pageDetails] the map
    is only asked whether keys exist and given new keys, so writing the
    record back once, at that last assignment, gives the same map. *)
Definition recordResponse (now : Z) (response : Response) (st : Crawl)
    : Crawl * Outcome unit :=
  let proposedURL := href response in
  let URLParts := URLParse proposedURL in
  let known := pvGet proposedURL (pagesVisited st) in
  if match known with
     | None => true
     | Some d => match statusCode d with Some c => c <? 0 | None => false end
     end
  then
    let pageDetails := match known with Some d => d | None => emptyDetails end in
    let pageDetails := setStatusCode (status response) pageDetails in
    let finish pageDetails st :=
      {| pagesVisited := pvSet proposedURL (setCompleteTime now pageDetails) (pagesVisited st);
         queued := queued st |} in
    if ((status response <? 300) && JS.truthyB (analyze pageDetails))%bool then
      match dollar response with
      | Some doc =>
          let st := fold_left (followLink now (URL.pathname URLParts) proposedURL)
                      (anchors doc) st in
          match scorePage dateValue now (readDocument pageDetails doc) with
          | Returned pageDetails => (finish pageDetails st, Returned tt)
          | TypeError => (st, TypeError)
          end
      | None => (finish (setAnalyzeFalse pageDetails) st, Returned tt)
      end
    else (finish (setAnalyzeFalse pageDetails) st, Returned tt)
  else (st, Returned tt).

(** [analyzePage(error, response, done)]; [queueSize] is the value of
    [pageCrawler.queueSize] read after [done()].  When the queue is empty
    the completion pass runs, and the reports follow only if it returns. *)
Definition analyzePage (now : Z) (fetched : Fetched) (queueSize : nat) (st : Crawl)
    : Crawl * Outcome unit :=
  let '(st, outcome) :=
    match fetched with
    | Failed => (st, Returned tt)
    | Responded response => recordResponse now response st
    end in
  match outcome with
  | TypeError => (st, TypeError)
  | Returned _ =>
      if Nat.eqb queueSize 0 then
        let '(pv, outcome) := adjustTermScores now (pagesVisited st) in
        ({| pagesVisited := pv; queued := queued st |}, outcome)
      else (st, Returned tt)
  end.

End Crawler.

Section Start.

Variable dirname : string -> string.

(** The last statements of [startCrawler]: fix [basePath], then queue the
    start page for analysis on an empty [pagesVisited]. *)
Definition startConfiguration (configuration : Configuration) : Configuration :=
  if subPathOnly configuration then
    {| protocol := protocol configuration;
       host := host configuration;
       startPage := startPage configuration;
       subPathOnly := subPathOnly configuration;
       saveToCSV := saveToCSV configuration;
       showReport := showReport configuration;
       debug := debug configuration;
       basePath := dirname (startPage configuration) |}
  else configuration.

Definition startCrawler (now : Z) (configuration : Configuration) : Crawl :=
  let configuration := startConfiguration configuration in
  let basePage := startURL configuration in
  snd (queueURLToCrawl configuration now basePage basePage true
         {| pagesVisited := []; queued := [] |}).

End Start.

(** ** The two library functions the resolver calls

    [cleanURL] and [startCrawler] are stated above for any URL parser and
    any [dirname].  The definitions below follow the libraries on the
    addresses a page carries and are used where a statement runs the code on
    a given link. *)

Module UrlParse.

(** [s] cut at the first [c]: what comes before, and the rest from [c] on. *)
Fixpoint cutAt (c : ascii) (s : string) : string * string :=
  match s with
  | EmptyString => (EmptyString, EmptyString)
  | String a r =>
      if Ascii.eqb a c then (EmptyString, s)
      else let '(before, from) := cutAt c r in (String a before, from)
  end.

Definition isLetter (c : ascii) : bool :=
  let n := nat_of_ascii c in
  ((Nat.leb 65 n && Nat.leb n 90) || (Nat.leb 97 n && Nat.leb n 122))%bool.

Definition isDigit (c : ascii) : bool :=
  let n := nat_of_ascii c in (Nat.leb 48 n && Nat.leb n 57)%bool.

Definition isSchemeChar (c : ascii) : bool :=
  (isLetter c || isDigit c || Ascii.eqb c "." || Ascii.eqb c "+" || Ascii.eqb c "-")%bool.

(** The rest of a scheme up to and with its colon, and what follows. *)
Fixpoint schemeTail (s : string) : option (string * string) :=
  match s with
  | EmptyString => None
  | String c r =>
      if Ascii.eqb c ":" then Some (":"%string, r)
      else if isSchemeChar c then
        match schemeTail r with
        | Some (p, rest) => Some (String c p, rest)
        | None => None
        end
      else None
  end.

(** [/^([a-z][a-z0-9.+-]*:)?/i]: the protocol, lower-cased, and the rest. *)
Definition extractProtocol (address : string) : string * string :=
  match address with
  | String c _ =>
      if isLetter c then
        match schemeTail address with
        | Some (p, rest) => (JS.toLowerCase p, rest)
        | None => (EmptyString, address)
        end
      else (EmptyString, address)
  | EmptyString => (EmptyString, address)
  end.

Definition isSpecial (scheme : string) : bool :=
  JS.includes ["file:"; "ftp:"; "http:"; "https:"; "ws:"; "wss:"] scheme.

(** What follows the last [@] of an authority. *)
Fixpoint afterAuth (s : string) : string :=
  match s with
  | EmptyString => EmptyString
  | String c r =>
      let '(_, from) := cutAt "@" r in
      match from with
      | EmptyString => if Ascii.eqb c "@" then r else s
      | _ => afterAuth r
      end
  end.

Fixpoint allDigits (s : string) : bool :=
  match s with
  | EmptyString => true
  | String c r => (isDigit c && allDigits r)%bool
  end.

(** An authority without its port: a colon and digits at its end. *)
Fixpoint dropPort (s : string) : string :=
  match s with
  | EmptyString => EmptyString
  | String c r =>
      if (Ascii.eqb c ":" && allDigits r)%bool then EmptyString
      else String c (dropPort r)
  end.

(** [URLParse(address)]: hash and query are cut off, then the protocol; an
    authority is read after [//] up to the next [/]; host names are
    lower-cased, and an empty path of a special protocol becomes [/]. *)
Definition parse (address : string) : URL.Parts :=
  let address := JS.trimStart address in
  let '(address, _) := cutAt "#" address in
  let '(address, _) := cutAt "?" address in
  let '(protocol, rest) := extractProtocol address in
  let '(authority, path) :=
    if (JS.substr0 2 rest =? "//")%string
    then cutAt "/" (substring 2 (String.length rest) rest)
    else (EmptyString, rest) in
  let hostname := JS.toLowerCase (dropPort (afterAuth authority)) in
  let pathname :=
    if (negb (JS.firstIs "/" path) && isSpecial protocol)%bool
    then ("/" ++ path)%string else path in
  {| URL.protocol := protocol; URL.hostname := hostname; URL.pathname := pathname |}.

End UrlParse.

Module Path.

Definition isSlash (c : ascii) : bool := Ascii.eqb c "/".

Fixpoint dropWhile (f : ascii -> bool) (l : list ascii) : list ascii :=
  match l with
  | [] => []
  | c :: r => if f c then dropWhile f r else l
  end.

(** [path.posix.dirname]: scanning from the end and never looking at the
    first character, skip trailing slashes and the last name; what is before
    the slash found there is the result. *)
Definition dirname (path : string) : string :=
  match path with
  | EmptyString => "."
  | String first rest =>
      let hasRoot := isSlash first in
      let scanned :=
        dropWhile (fun c => negb (isSlash c))
          (dropWhile isSlash (rev (list_ascii_of_string rest))) in
      match scanned with
      | [] => if hasRoot then "/" else "."
      | _ :: before =>
          match before with
          | [] => if hasRoot then "//" else String first EmptyString
          | _ => String first (string_of_list_ascii (rev before))
          end
      end
  end.

End Path.

(** ** Crawl runs *)

(** The states a crawl goes through: [startCrawler] queues the start page,
    then the crawler calls [analyzePage] back, once per fetch, with whatever
    the fetch gave and whatever queue size it reads. *)
Inductive reachable (dateValue : string -> option Z) (URLParse : string -> URL.Parts)
    (dirname : string -> string) (configuration : Configuration) : Crawl -> Prop :=
| reach_start (now : Z) :
    reachable dateValue URLParse dirname configuration
      (startCrawler dirname now configuration)
| reach_callback (st : Crawl) (now : Z) (fetched : Fetched) (queueSize : nat) :
    reachable dateValue URLParse dirname configuration st ->
    reachable dateValue URLParse dirname configuration
      (fst (analyzePage dateValue URLParse dirname
              (startConfiguration dirname configuration) now fetched queueSize st)).

(** What holds of the [version] of a record: it is the empty string, or the
    record began as [{}], has no [version], no [referrer] and is not to be
    analyzed. *)
Definition versionUnset (d : PageDetails) : Prop :=
  version d = Some "" \/
  (version d = None /\ referrer d = None /\ analyze d = Some false).

Definition allRecords (P : PageDetails -> Prop) (pv : PagesVisited) : Prop :=
  Forall (fun entry => P (snd entry)) pv.

(** ** Pages and configurations used as examples *)

(** A crawl of [https://host/docs/index.html] restricted to [/docs]. *)
Definition docsConfiguration : Configuration :=
  {| protocol := "https:"; host := "host"; startPage := "/docs/index.html";
     subPathOnly := true; saveToCSV := ""; showReport := true; debug := false;
     basePath := "/docs" |}.

(** A document with the given title, keywords, first header, links and
    terms, and no other meta tag. *)
Definition plainDocument (t : string) (k : option string) (h : string)
    (links : list (option string)) (words : list string) (counts : list Z) : Document :=
  {| docTitle := t; metaDescription := None; metaKeywords := k;
     metaLastModified := None; metaProduct := None; headerOneText := h;
     anchors := links;
     docTerms := {| vocabulary := words; data0 := counts |} |}.

(** The record of a queued page once [analyzePage] has copied a document
    answered with status 200 into it. *)
Definition pageOf (doc : Document) : PageDetails :=
  readDocument (setStatusCode 200 (newPageDetails 0 "https://host/docs/index.html" true)) doc.

(** The time values of three ISO dates, standing for [Date] on them. *)
Definition sampleDates (s : string) : option Z :=
  if (s =? "2025-11-01T00:00:00.000Z")%string then Some 1761955200000
  else if (s =? "2025-11-02T00:00:00.000Z")%string then Some 1762041600000
  else if (s =? "2026-11-02T00:00:00.000Z")%string then Some 1793577600000
  else None.

(** A record whose [lastModified] is the given value. *)
Definition modifiedPage (m : option string) : PageDetails :=
  readDocument (setStatusCode 200 (newPageDetails 0 "https://host/docs/index.html" true))
    {| docTitle := "Docs"; metaDescription := None; metaKeywords := None;
       metaLastModified := m; metaProduct := None; headerOneText := "";
       anchors := []; docTerms := {| vocabulary := ["docs"]; data0 := [2] |} |}.

(** A crawl of the whole site from [/index.html]; [startCrawler] sets
    [basePath] to [/]. *)
Definition siteConfiguration : Configuration :=
  {| protocol := "https:"; host := "host"; startPage := "/index.html";
     subPathOnly := true; saveToCSV := ""; showReport := true; debug := false;
     basePath := "" |}.


(** [pagesVisited] and the queue before the first call. *)
Definition emptyCrawl : Crawl := {| pagesVisited := []; queued := [] |}.

(** The links of one page, followed in document order from [st]. *)
Definition followLinks (configuration : Configuration) (currentPath pageURL : string)
    (links : list (option string)) (st : Crawl) : Crawl :=
  fold_left (followLink UrlParse.parse Path.dirname configuration 0 currentPath pageURL)
    links st.

(** The start page of the crawl restricted to [/docs]: title and first
    header "Docs", one link, no meta tag; its terms are met once each. *)
Definition docsHome : Response :=
  {| href := "https://host/docs/index.html";
     status := 200;
     dollar := Some (plainDocument "Docs" None "Docs" [Some "/docs/page2.html"]
                       ["doc"; "home"] [1; 1]) |}.

(** The crawl restricted to [/docs] after the start page has been answered
    with [docsHome] while its link is still in the queue. *)
Definition docsCrawl : Crawl :=
  fst (analyzePage sampleDates UrlParse.parse Path.dirname docsConfiguration 5
         (Responded docsHome) 1 (startCrawler Path.dirname 0 docsConfiguration)).

(** The start page of the crawl restricted to [/docs] with the title "Docs
    Home", the first header "docs home", a date, the product "Suite" and two
    links. *)
Definition suiteHome : Response :=
  {| href := "https://host/docs/index.html";
     status := 200;
     dollar := Some {| docTitle := "Docs Home"; metaDescription := None;
                       metaKeywords := None;
                       metaLastModified := Some "2026-11-02T00:00:00.000Z";
                       metaProduct := Some "Suite"; headerOneText := "docs home";
                       anchors := [Some "/docs/page2"; Some "https://other.com/x"];
                       docTerms := {| vocabulary := ["doc"; "home"]; data0 := [3; 2] |} |} |}.

(** The answer to the start page when the server has moved it: the URL of
    the response, [https://host/docs/], was never queued. *)
Definition movedHome : Response :=
  {| href := "https://host/docs/";
     status := 200;
     dollar := Some (plainDocument "Docs" None "Docs" [] ["doc"] [1]) |}.

(** A page whose product meta tag is there with an empty content. *)
Definition blankProductPage : PageDetails :=
  readDocument (setStatusCode 200 (newPageDetails 0 "https://host/docs/index.html" true))
    {| docTitle := "Docs"; metaDescription := None; metaKeywords := None;
       metaLastModified := None; metaProduct := Some ""; headerOneText := "";
       anchors := []; docTerms := {| vocabulary := ["docs"]; data0 := [2] |} |}.

(** The crawl restricted to [/docs] after its start page is answered with a
    page without first header, whose score is -3, and after the second of its
    two links is answered with 404; the first link is still unanswered. *)
Definition docsScored : Crawl :=
  fst (analyzePage sampleDates UrlParse.parse Path.dirname docsConfiguration 6
         (Responded {| href := "https://other.com/x"; status := 404; dollar := None |}) 1
         (fst (analyzePage sampleDates UrlParse.parse Path.dirname docsConfiguration 5
                 (Responded {| href := "https://host/docs/index.html"; status := 200;
                               dollar := Some (plainDocument "Docs" None ""
                                                 [Some "/docs/page2.html";
                                                  Some "https://other.com/x"]
                                                 ["doc"] [1]) |})
                 2 (startCrawler Path.dirname 0 docsConfiguration)))).

(** A page whose title and description are "Seo", whose first header is
    "seo" and whose keywords are "web" and, behind a comma and a tab, "Seo". *)
Definition boostedPage : PageDetails :=
  readDocument (setStatusCode 200 (newPageDetails 0 "https://host/docs/index.html" true))
    {| docTitle := "Seo"; metaDescription := Some "Seo";
       metaKeywords := Some ("web," ++ String "009" "Seo");
       metaLastModified := None; metaProduct := None; headerOneText := "Seo";
       anchors := []; docTerms := {| vocabulary := ["seo"; "web"]; data0 := [2; 1] |} |}.

(** * Properties *)

(** ** Strings *)

Lemma append_assoc (a b c : string) : ((a ++ b) ++ c = a ++ b ++ c)%string.
Proof. induction a as [|x a IH]; simpl; [reflexivity | now rewrite IH]. Qed.

Lemma append_empty_r (a : string) : (a ++ "" = a)%string.
Proof. induction a as [|x a IH]; simpl; [reflexivity | now rewrite IH]. Qed.

Lemma append_nonempty_l (a b : string) : a <> ""%string -> (a ++ b)%string <> ""%string.
Proof. destruct a; [contradiction | discriminate]. Qed.

(** ** The record map and the frontier *)

Lemma pvGet_pvSet_same URL d pv : pvGet URL (pvSet URL d pv) = Some d.
Proof.
  induction pv as [|[k d0] rest IH]; simpl.
  - now rewrite String.eqb_refl.
  - destruct (k =? URL)%string eqn:E; simpl; rewrite E; auto.
Qed.

Lemma pvGet_pvSet_other URL URL' d pv :
  URL <> URL' -> pvGet URL' (pvSet URL d pv) = pvGet URL' pv.
Proof.
  intros Hne. induction pv as [|[k d0] rest IH]; simpl.
  - destruct (URL =? URL')%string eqn:E; auto.
    apply String.eqb_eq in E. contradiction.
  - destruct (k =? URL)%string eqn:E; simpl.
    + apply String.eqb_eq in E. subst k.
      destruct (URL =? URL')%string eqn:E'; auto.
      apply String.eqb_eq in E'. contradiction.
    + destruct (k =? URL')%string; auto.
Qed.

Lemma pvGet_None_not_key URL pv : pvGet URL pv = None <-> ~ In URL (pvKeys pv).
Proof.
  induction pv as [|[k d] rest IH]; simpl.
  - tauto.
  - destruct (k =? URL)%string eqn:E.
    + apply String.eqb_eq in E. split; [discriminate | intros H; exfalso; auto].
    + apply String.eqb_neq in E. rewrite IH. tauto.
Qed.

Lemma pvSet_fresh URL d pv :
  pvGet URL pv = None -> pvSet URL d pv = (pv ++ [(URL, d)])%list.
Proof.
  induction pv as [|[k d0] rest IH]; simpl; auto.
  destruct (k =? URL)%string; [discriminate|].
  intros H. now rewrite IH.
Qed.

Lemma pvCount_fresh URL d pv :
  pvGet URL pv = None -> pvCount URL (pvSet URL d pv) = 1%nat.
Proof.
  intros H. rewrite (pvSet_fresh _ _ _ H). unfold pvCount, pvKeys.
  rewrite map_app, count_occ_app. simpl.
  destruct (string_dec URL URL) as [_|Hn]; [|contradiction].
  apply pvGet_None_not_key in H.
  apply (count_occ_not_In string_dec) in H. unfold pvKeys in H. rewrite H. reflexivity.
Qed.

Lemma queueURLToCrawl_fresh configuration now URL referrer analyze st :
  pvGet (queueKey configuration URL) (pagesVisited st) = None ->
  queueURLToCrawl configuration now URL referrer analyze st =
  (true, {| pagesVisited := pvSet (queueKey configuration URL)
                              (newPageDetails now referrer analyze) (pagesVisited st);
            queued := (queued st ++ [queueKey configuration URL])%list |}).
Proof. intros H. unfold queueURLToCrawl. now rewrite H. Qed.

Lemma queueURLToCrawl_known configuration now URL referrer analyze st d :
  pvGet (queueKey configuration URL) (pagesVisited st) = Some d ->
  queueURLToCrawl configuration now URL referrer analyze st = (false, st).
Proof. intros H. unfold queueURLToCrawl. now rewrite H. Qed.

(** C1 -- idempotent enqueue.  When no record exists yet under the key that
    [queueURLToCrawl] uses for [u], a first call returns [true] and stores a
    pending record ([statusCode] -1) carrying the given referrer and analyze
    flag; a second call for the same [u], whatever its other arguments,
    returns [false] and leaves the whole state as it was; exactly one record
    is stored under that key, and the URL has been handed to the crawler
    once. *)
Theorem C1_enqueue_idempotent
    (configuration : Configuration) (now1 now2 : Z) (u ref1 ref2 : string)
    (an1 an2 : bool) (st : Crawl) :
  pvGet (queueKey configuration u) (pagesVisited st) = None ->
  let r1 := queueURLToCrawl configuration now1 u ref1 an1 st in
  let r2 := queueURLToCrawl configuration now2 u ref2 an2 (snd r1) in
  fst r1 = true /\
  fst r2 = false /\
  snd r2 = snd r1 /\
  pvCount (queueKey configuration u) (pagesVisited (snd r2)) = 1%nat /\
  length (pagesVisited (snd r2)) = S (length (pagesVisited st)) /\
  queued (snd r2) = (queued st ++ [queueKey configuration u])%list /\
  exists d,
    pvGet (queueKey configuration u) (pagesVisited (snd r2)) = Some d /\
    statusCode d = Some (-1) /\
    referrer d = Some ref1 /\
    analyze d = Some an1.
Proof.
  intros Hfresh r1 r2. subst r1 r2.
  rewrite (queueURLToCrawl_fresh _ now1 _ ref1 an1 _ Hfresh). cbn [fst snd].
  rewrite (queueURLToCrawl_known _ now2 _ ref2 an2 _ (newPageDetails now1 ref1 an1))
    by (cbn [pagesVisited]; apply pvGet_pvSet_same).
  cbn [fst snd pagesVisited].
  repeat split.
  - now apply pvCount_fresh.
  - rewrite (pvSet_fresh _ _ _ Hfresh), length_app. simpl. lia.
  - exists (newPageDetails now1 ref1 an1). rewrite pvGet_pvSet_same. auto.
Qed.

(** A fresh crawl of [https://host/]: the second enqueue is refused. *)
Lemma C1_enqueue_idempotent_witness :
  let configuration :=
    {| protocol := "https:"; host := "host"; startPage := "/"; subPathOnly := true;
       saveToCSV := ""; showReport := true; debug := false; basePath := "/" |} in
  let st := {| pagesVisited := []; queued := [] |} in
  let r1 := queueURLToCrawl configuration 10 "https://host/" "https://host/" true st in
  let r2 := queueURLToCrawl configuration 20 "https://host/" "https://host/a" false (snd r1) in
  fst r1 = true /\
  fst r2 = false /\
  snd r2 = snd r1 /\
  pvCount (queueKey configuration "https://host/") (pagesVisited (snd r2)) = 1%nat /\
  length (pagesVisited (snd r2)) = S (length (pagesVisited st)) /\
  queued (snd r2) = (queued st ++ [queueKey configuration "https://host/"])%list /\
  exists d,
    pvGet (queueKey configuration "https://host/") (pagesVisited (snd r2)) = Some d /\
    statusCode d = Some (-1) /\
    referrer d = Some "https://host/" /\
    analyze d = Some true.
Proof.
  intros configuration st.
  apply (C1_enqueue_idempotent configuration 10 20 "https://host/"
           "https://host/" "https://host/a" true false st).
  reflexivity.
Defined.

(** ** The boost blocks *)

Lemma boostTerms_no_match amount word l pageScore boostedWordCount :
  (forall x, In x l -> term x <> word) ->
  boostTerms amount word l pageScore boostedWordCount = (l, pageScore, boostedWordCount).
Proof.
  induction l as [|x l IH]; intros Hno; simpl; auto.
  destruct (word =? term x)%string eqn:E.
  - apply String.eqb_eq in E. exfalso. apply (Hno x); simpl; auto.
  - rewrite IH; auto. intros y Hy. apply Hno. simpl; auto.
Qed.

Lemma boostTerms_one_match amount word l1 e l2 pageScore boostedWordCount :
  term e = word ->
  (forall x, In x (l1 ++ l2)%list -> term x <> word) ->
  boostTerms amount word (l1 ++ e :: l2)%list pageScore boostedWordCount =
  ((l1 ++ boostFrequency amount e :: l2)%list,
   if frequency e >? 1 then pageScore + amount else pageScore,
   if frequency e >? 1 then boostedWordCount + 1 else boostedWordCount).
Proof.
  intros He. induction l1 as [|x l1 IH]; intros Hno; simpl.
  - rewrite He, String.eqb_refl.
    destruct (frequency e >? 1); rewrite boostTerms_no_match; auto.
  - destruct (word =? term x)%string eqn:E.
    + apply String.eqb_eq in E. exfalso. apply (Hno x); simpl; auto.
    + rewrite IH; auto. intros y Hy. apply Hno. simpl; auto.
Qed.

Lemma boostWords_last amount compared headerOneWords ws w b :
  boostWords amount compared headerOneWords (ws ++ [w])%list b =
  boostWord amount compared headerOneWords
    (boostWords amount compared headerOneWords ws b) w.
Proof. unfold boostWords. now rewrite fold_left_app. Qed.

Lemma boostWords_middle amount compared headerOneWords ws w ws' b :
  boostWords amount compared headerOneWords (ws ++ w :: ws')%list b =
  boostWords amount compared headerOneWords ws'
    (boostWord amount compared headerOneWords
       (boostWords amount compared headerOneWords ws b) w).
Proof. unfold boostWords. now rewrite fold_left_app. Qed.

(** C2, as the code has it -- title boost.  Let the title loop have handled
    the words [ws] and reach the word [w], and let [e] be the one entry of
    the word list whose term is [w] lower-cased.  Handling [w] adds 2 to the
    frequency of [e] whatever that frequency is, leaves every other entry and
    the order alone, and adds 2 to the score when the frequency of [e] was
    above 1, nothing otherwise.  The title words are the pieces of the title
    between single spaces. *)
Theorem C2_title_boost
    (headerOneWords : option (list string)) (ws : list string) (w : string)
    (b0 : BoostState) (l1 l2 : list WordFrequency) (e : WordFrequency) :
  let b := boostWords 2 (fun word => word) headerOneWords ws b0 in
  let b' := boostWords 2 (fun word => word) headerOneWords (ws ++ [w])%list b0 in
  bWords b = (l1 ++ e :: l2)%list ->
  term e = JS.toLowerCase w ->
  (forall x, In x (l1 ++ l2)%list -> term x <> JS.toLowerCase w) ->
  bWords b' = (l1 ++ {| term := term e; frequency := frequency e + 2 |} :: l2)%list /\
  (frequency e > 1 -> bScore b' = bScore b + 2) /\
  (frequency e <= 1 -> bScore b' = bScore b) /\
  (forall pageDetails s,
     JS.truthy (title pageDetails) = true ->
     score (titleRule pageDetails headerOneWords s) =
     bScore (boostWords 2 (fun word => word) headerOneWords
               (JS.splitOn " " (text (title pageDetails))) (startBoost s))).
Proof.
  intros b b' Hb He Hno. subst b'. rewrite boostWords_last. fold b.
  unfold boostWord. rewrite Hb.
  rewrite (boostTerms_one_match 2 _ l1 e l2 _ _ He Hno). cbn [bWords bScore].
  repeat split.
  - intros Hgt. destruct (frequency e >? 1) eqn:E; auto.
    rewrite Z.gtb_ltb, Z.ltb_ge in E. lia.
  - intros Hle. destruct (frequency e >? 1) eqn:E; auto.
    rewrite Z.gtb_ltb, Z.ltb_lt in E. lia.
  - intros pageDetails s Ht. unfold titleRule. rewrite Ht. reflexivity.
Qed.

(** The title loop has handled "Docs" and reaches "Home", a term met twice
    in the body. *)
Lemma C2_title_boost_witness :
  let b0 := {| bWords := [ {| term := "docs"; frequency := 3 |};
                           {| term := "home"; frequency := 2 |} ];
               bScore := 0; bCount := 0; bHeader := 0 |} in
  let b := boostWords 2 (fun word => word) None ["Docs"] b0 in
  let b' := boostWords 2 (fun word => word) None ["Docs"; "Home"] b0 in
  bWords b' = [ {| term := "docs"; frequency := 5 |};
                {| term := "home"; frequency := 4 |} ] /\
  bScore b' = bScore b + 2.
Proof.
  intros b0 b b'.
  destruct (C2_title_boost None ["Docs"] "Home" b0
              [ {| term := "docs"; frequency := 5 |} ] []
              {| term := "home"; frequency := 2 |}) as (Hw & Hs & _).
  - reflexivity.
  - reflexivity.
  - simpl. intros x [<-|[]]. discriminate.
  - split; [exact Hw | apply Hs; simpl; lia].
Defined.

(** C2 as the specification states it does not hold: a title word that
    matches a term met once in the body leaves the score alone but raises the
    frequency of the term from 1 to 3. *)
Lemma C2_counterexample :
  let pageDetails := pageOf (plainDocument "Home" None "" [] ["home"] [1]) in
  let s := startScoring {| vocabulary := ["home"]; data0 := [1] |} in
  let s' := titleRule pageDetails (headerWords pageDetails) s in
  wordList s = [ {| term := "home"; frequency := 1 |} ] /\
  score s' = score s /\
  wordList s' = [ {| term := "home"; frequency := 3 |} ] /\
  wordList s' <> wordList s.
Proof.
  cbv zeta. repeat split; try reflexivity. discriminate.
Qed.

(** C5 at a keyword list with two commas: [replace(',', ' ')] turns only
    the first comma into a space, so the boost words are "seo" and
    "crawler,score", and of the three keywords, all met more than once in the
    body, only "seo" is boosted. *)
Lemma C5_keywords_first_comma_only :
  let doc := plainDocument "" (Some "seo,crawler,score") "" []
               ["crawler"; "score"; "seo"] [3; 2; 2] in
  let pageDetails := pageOf doc in
  let s := startScoring (docTerms doc) in
  let s' := keywordRule pageDetails (headerWords pageDetails) s in
  keywordWords "seo,crawler,score" = ["seo"; "crawler,score"] /\
  wordList s = [ {| term := "crawler"; frequency := 3 |};
                 {| term := "score"; frequency := 2 |};
                 {| term := "seo"; frequency := 2 |} ] /\
  score s' = score s + 1 /\
  wordList s' = [ {| term := "crawler"; frequency := 3 |};
                  {| term := "score"; frequency := 2 |};
                  {| term := "seo"; frequency := 3 |} ].
Proof. cbv zeta. repeat split; reflexivity. Qed.

(** ** The rules after the boosts *)

Lemma judge_score delta clause s : score (judge delta clause s) = score s + delta.
Proof. reflexivity. Qed.

Lemma judge_analysis delta clause s :
  analysis (judge delta clause s) = (analysis s ++ clause)%string.
Proof. reflexivity. Qed.

Lemma scorePage_rules dateValue now pageDetails t :
  analyze pageDetails = Some true ->
  terms pageDetails = Some t ->
  exists boosted,
    scorePage dateValue now pageDetails =
    Returned (storeScore pageDetails
                (headerRule pageDetails
                   (productRule pageDetails
                      (freshnessRule dateValue now pageDetails boosted)))).
Proof.
  intros Ha Ht. unfold scorePage, scoreRules. rewrite Ha, Ht. cbn [JS.truthyB].
  eexists. reflexivity.
Qed.

Lemma scorePage_stored dateValue now pageDetails t :
  JS.truthyB (analyze pageDetails) = true ->
  terms pageDetails = Some t ->
  scorePage dateValue now pageDetails =
  Returned (storeScore pageDetails (scoreRules dateValue now pageDetails (startScoring t))).
Proof. intros Ha Ht. unfold scorePage. now rewrite Ha, Ht. Qed.

Lemma lateRules_stored pageDetails s :
  score (headerRule pageDetails (productRule pageDetails s)) =
  score s
  + (if JS.truthy (product pageDetails)
     then if JS.truthy (version pageDetails) then 1 else -1
     else 0)
  + (if JS.truthy (headerOne pageDetails)
     then 1 + headerWordsInTitle s + headerWordsInDescription s + headerWordsInKeywords s
     else -1) /\
  analysis (headerRule pageDetails (productRule pageDetails s)) =
  (analysis s
   ++ (if JS.truthy (product pageDetails)
       then if JS.truthy (version pageDetails)
            then "; good: page has product and version."
            else "; bad: page has product but missing version."
       else "")
   ++ (if JS.truthy (headerOne pageDetails)
       then "; good: page has H1, " ++ JS.numberToString (headerWordsInTitle s)
            ++ " in title, " ++ JS.numberToString (headerWordsInDescription s)
            ++ " in description, " ++ JS.numberToString (headerWordsInKeywords s)
            ++ " in keywords"
       else "; bad: page missing H1."))%string.
Proof.
  unfold headerRule, productRule.
  destruct (JS.truthy (product pageDetails));
    [destruct (JS.truthy (version pageDetails))|];
    destruct (JS.truthy (headerOne pageDetails));
    cbn [negb judge score analysis headerWordsInTitle headerWordsInDescription
           headerWordsInKeywords];
    (split; [lia | rewrite ?append_assoc; reflexivity]).
Qed.

(** C6 -- freshness.  For every record that [scorePage] scores, let
    [boosted] be the state after the three boost blocks, and let [later] and
    [laterClauses] be what the product rule and the H1 rule add after the
    freshness rule.  With [lastModified] present and read as a date, an age
    above 365 days in milliseconds makes the stored [pageScore] the boosted
    score - 1 + [later] and puts the clause "bad: page over 1 year old" in
    the stored [pageAnalysis] right after the boost clauses; an age of 365
    days or less, so also of exactly 365 days, gives + 1 and "good: page is
    recent"; without [lastModified] the score loses 2 and the clause is
    "bad: page missing last-modified". *)
Theorem C6_freshness
    (dateValue : string -> option Z) (now : Z) (pageDetails : PageDetails)
    (t : DocumentTermMatrix) :
  JS.truthyB (analyze pageDetails) = true ->
  terms pageDetails = Some t ->
  let headerOneWords := headerWords pageDetails in
  let boosted :=
    keywordRule pageDetails headerOneWords
      (descriptionRule pageDetails headerOneWords
         (titleRule pageDetails headerOneWords (startScoring t))) in
  let later :=
    (if JS.truthy (product pageDetails)
     then if JS.truthy (version pageDetails) then 1 else -1
     else 0)
    + (if JS.truthy (headerOne pageDetails)
       then 1 + headerWordsInTitle boosted + headerWordsInDescription boosted
            + headerWordsInKeywords boosted
       else -1) in
  let laterClauses :=
    ((if JS.truthy (product pageDetails)
      then if JS.truthy (version pageDetails)
           then "; good: page has product and version."
           else "; bad: page has product but missing version."
      else "")
     ++ (if JS.truthy (headerOne pageDetails)
         then "; good: page has H1, " ++ JS.numberToString (headerWordsInTitle boosted)
              ++ " in title, " ++ JS.numberToString (headerWordsInDescription boosted)
              ++ " in description, " ++ JS.numberToString (headerWordsInKeywords boosted)
              ++ " in keywords"
         else "; bad: page missing H1."))%string in
  exists scored,
    scorePage dateValue now pageDetails = Returned scored /\
    (forall d,
       JS.truthy (lastModified pageDetails) = true ->
       dateValue (text (lastModified pageDetails)) = Some d ->
       now - d > 365 * 24 * 60 * 60 * 1000 ->
       pageScore scored = Some (score boosted - 1 + later) /\
       pageAnalysis scored =
       Some (analysis boosted ++ "; bad: page over 1 year old." ++ laterClauses)%string) /\
    (forall d,
       JS.truthy (lastModified pageDetails) = true ->
       dateValue (text (lastModified pageDetails)) = Some d ->
       now - d <= 365 * 24 * 60 * 60 * 1000 ->
       pageScore scored = Some (score boosted + 1 + later) /\
       pageAnalysis scored =
       Some (analysis boosted ++ "; good: page is recent." ++ laterClauses)%string) /\
    (JS.truthy (lastModified pageDetails) = false ->
       pageScore scored = Some (score boosted - 2 + later) /\
       pageAnalysis scored =
       Some (analysis boosted ++ "; bad: page missing last-modified." ++ laterClauses)%string).
Proof.
  intros Ha Ht headerOneWords boosted later laterClauses.
  eexists. split; [exact (scorePage_stored dateValue now pageDetails t Ha Ht)|].
  cbn [storeScore pageScore pageAnalysis]. unfold scoreRules.
  fold headerOneWords. fold boosted.
  destruct (lateRules_stored pageDetails (freshnessRule dateValue now pageDetails boosted))
    as [Hscore Hanalysis].
  rewrite Hscore, Hanalysis. clear Hscore Hanalysis.
  assert (Hjudge : forall delta clause,
            freshnessRule dateValue now pageDetails boosted = judge delta clause boosted ->
            Some (score (freshnessRule dateValue now pageDetails boosted)
                  + (if JS.truthy (product pageDetails)
                     then if JS.truthy (version pageDetails) then 1 else -1
                     else 0)
                  + (if JS.truthy (headerOne pageDetails)
                     then 1 + headerWordsInTitle
                                (freshnessRule dateValue now pageDetails boosted)
                          + headerWordsInDescription
                              (freshnessRule dateValue now pageDetails boosted)
                          + headerWordsInKeywords
                              (freshnessRule dateValue now pageDetails boosted)
                     else -1))
            = Some (score boosted + delta + later) /\
            Some (analysis (freshnessRule dateValue now pageDetails boosted)
                  ++ (if JS.truthy (product pageDetails)
                      then if JS.truthy (version pageDetails)
                           then "; good: page has product and version."
                           else "; bad: page has product but missing version."
                      else "")
                  ++ (if JS.truthy (headerOne pageDetails)
                      then "; good: page has H1, "
                           ++ JS.numberToString
                                (headerWordsInTitle
                                   (freshnessRule dateValue now pageDetails boosted))
                           ++ " in title, "
                           ++ JS.numberToString
                                (headerWordsInDescription
                                   (freshnessRule dateValue now pageDetails boosted))
                           ++ " in description, "
                           ++ JS.numberToString
                                (headerWordsInKeywords
                                   (freshnessRule dateValue now pageDetails boosted))
                           ++ " in keywords"
                      else "; bad: page missing H1."))%string
            = Some (analysis boosted ++ clause ++ laterClauses)%string).
  { intros delta clause ->.
    cbn [judge score analysis headerWordsInTitle headerWordsInDescription
           headerWordsInKeywords].
    subst later laterClauses. split; [f_equal; lia | now rewrite append_assoc]. }
  repeat split.
  - apply (proj1 (Hjudge (-1) "; bad: page over 1 year old."%string ltac:(
      unfold freshnessRule, oneYear; rewrite H, H0;
      destruct (now - d >? 365 * 24 * 60 * 60 * 1000) eqn:E;
      [reflexivity | rewrite Z.gtb_ltb, Z.ltb_ge in E; lia])) ).
  - apply (proj2 (Hjudge (-1) "; bad: page over 1 year old."%string ltac:(
      unfold freshnessRule, oneYear; rewrite H, H0;
      destruct (now - d >? 365 * 24 * 60 * 60 * 1000) eqn:E;
      [reflexivity | rewrite Z.gtb_ltb, Z.ltb_ge in E; lia])) ).
  - apply (proj1 (Hjudge 1 "; good: page is recent."%string ltac:(
      unfold freshnessRule, oneYear; rewrite H, H0;
      destruct (now - d >? 365 * 24 * 60 * 60 * 1000) eqn:E;
      [rewrite Z.gtb_ltb, Z.ltb_lt in E; lia | reflexivity])) ).
  - apply (proj2 (Hjudge 1 "; good: page is recent."%string ltac:(
      unfold freshnessRule, oneYear; rewrite H, H0;
      destruct (now - d >? 365 * 24 * 60 * 60 * 1000) eqn:E;
      [rewrite Z.gtb_ltb, Z.ltb_lt in E; lia | reflexivity])) ).
  - apply (proj1 (Hjudge (-2) "; bad: page missing last-modified."%string ltac:(
      unfold freshnessRule; rewrite H; reflexivity)) ).
  - apply (proj2 (Hjudge (-2) "; bad: page missing last-modified."%string ltac:(
      unfold freshnessRule; rewrite H; reflexivity)) ).
Qed.

(** [scorePage] run on 2 November 2026 on a page with a title met twice
    in the body and nothing else: last modified 366 days before, it is stored
    with the score 0; last modified exactly 365 days before, with 2; without
    the date, with -1; each time with its clause. *)
Lemma C6_freshness_witness :
  let now := 1793577600000 in
  (exists scored,
     scorePage sampleDates now (modifiedPage (Some "2025-11-01T00:00:00.000Z"))
     = Returned scored /\
     pageScore scored = Some 0 /\
     pageAnalysis scored =
     Some "good: 1 title words appear in body.; very bad: no description.; very bad: no keywords.; bad: page over 1 year old.; bad: page missing H1."%string) /\
  (exists scored,
     scorePage sampleDates now (modifiedPage (Some "2025-11-02T00:00:00.000Z"))
     = Returned scored /\
     pageScore scored = Some 2 /\
     pageAnalysis scored =
     Some "good: 1 title words appear in body.; very bad: no description.; very bad: no keywords.; good: page is recent.; bad: page missing H1."%string) /\
  (exists scored,
     scorePage sampleDates now (modifiedPage None) = Returned scored /\
     pageScore scored = Some (-1) /\
     pageAnalysis scored =
     Some "good: 1 title words appear in body.; very bad: no description.; very bad: no keywords.; bad: page missing last-modified.; bad: page missing H1."%string).
Proof.
  intros now. split; [|split].
  - destruct (C6_freshness sampleDates now
                (modifiedPage (Some "2025-11-01T00:00:00.000Z"))
                {| vocabulary := ["docs"]; data0 := [2] |} eq_refl eq_refl)
      as [scored [Hrun [Hold _]]].
    exists scored. split; [exact Hrun|].
    exact (Hold 1761955200000 eq_refl eq_refl ltac:(unfold now; lia)).
  - destruct (C6_freshness sampleDates now
                (modifiedPage (Some "2025-11-02T00:00:00.000Z"))
                {| vocabulary := ["docs"]; data0 := [2] |} eq_refl eq_refl)
      as [scored [Hrun [_ [Hrecent _]]]].
    exists scored. split; [exact Hrun|].
    exact (Hrecent 1762041600000 eq_refl eq_refl ltac:(unfold now; lia)).
  - destruct (C6_freshness sampleDates now (modifiedPage None)
                {| vocabulary := ["docs"]; data0 := [2] |} eq_refl eq_refl)
      as [scored [Hrun [_ [_ Hmissing]]]].
    exists scored. split; [exact Hrun|].
    exact (Hmissing eq_refl).
Defined.

(** ** The URL resolver *)

(** C3 on a crawl of the whole site: the links [https://host/],
    [https://host] and [https://host/index.html] are in scope, and the
    in-scope branch of [cleanURL] answers [https://host/index.html] for the
    third but [https://host/] for the first two, so following them from the
    start page leaves two records for the index page.  On a crawl restricted
    to [/docs] the same three links take the other branch and share the one
    record [https://host/]. *)
Lemma C3_in_scope_index_not_aliased :
  let site := startConfiguration Path.dirname siteConfiguration in
  let resolve link :=
    fst (cleanURL UrlParse.parse Path.dirname site 0 (Some link)
           "/index.html" "https://host/index.html" emptyCrawl) in
  let links := [Some "https://host/"; Some "https://host"; Some "https://host/index.html"] in
  basePath site = "/" /\
  resolve "https://host/" = Some "https://host/" /\
  resolve "https://host" = Some "https://host/" /\
  resolve "https://host/index.html" = Some "https://host/index.html" /\
  pvKeys (pagesVisited
            (followLinks site "/index.html" "https://host/index.html" links
               (startCrawler Path.dirname 0 siteConfiguration)))
  = ["https://host/index.html"; "https://host/"] /\
  pvKeys (pagesVisited
            (followLinks docsConfiguration "/docs/index.html"
               "https://host/docs/index.html" links emptyCrawl))
  = ["https://host/"].
Proof. cbv zeta. repeat split; reflexivity. Qed.

(** C4 at a link met twice: once [/docs/page2.html] has been followed and
    its record exists under [https://host/docs/page2.html], [cleanURL] still
    answers that URL, not [null], for the same link and for the link
    [/docs/page2.html#top]; it looks the raw link up, and only a link that is
    written as the key itself is answered with [null]. *)
Lemma C4_recorded_link_not_rejected :
  let st := followLinks docsConfiguration "/docs/index.html" "https://host/docs/index.html"
              [Some "/docs/page2.html"] (startCrawler Path.dirname 0 docsConfiguration) in
  let resolve link :=
    fst (cleanURL UrlParse.parse Path.dirname docsConfiguration 0 (Some link)
           "/docs/index.html" "https://host/docs/index.html" st) in
  JS.isUndefined (pvGet "https://host/docs/page2.html" (pagesVisited st)) = false /\
  resolve "/docs/page2.html" = Some "https://host/docs/page2.html" /\
  resolve "/docs/page2.html#top" = Some "https://host/docs/page2.html" /\
  resolve "https://host/docs/page2.html" = None.
Proof. cbv zeta. repeat split; reflexivity. Qed.

Lemma isIntendedSubPath_spec configuration URLParts :
  isIntendedSubPath configuration URLParts = true <->
  (URL.hostname URLParts = "" \/
   JS.toLowerCase (URL.hostname URLParts) = host configuration) /\
  (subPathOnly configuration = false \/
   JS.startsWith (URL.pathname URLParts) (basePath configuration) = true).
Proof.
  unfold isIntendedSubPath.
  assert (Hlen : Nat.eqb (String.length (URL.hostname URLParts)) 0 = true
                 <-> URL.hostname URLParts = "").
  { destruct (URL.hostname URLParts); simpl; split; congruence. }
  pose proof (String.eqb_eq (JS.toLowerCase (URL.hostname URLParts)) (host configuration))
    as Hhost.
  destruct (Nat.eqb (String.length (URL.hostname URLParts)) 0);
    destruct (JS.toLowerCase (URL.hostname URLParts) =? host configuration)%string;
    destruct (subPathOnly configuration);
    destruct (JS.startsWith (URL.pathname URLParts) (basePath configuration));
    cbn [orb]; intuition congruence.
Qed.


(** X29 -- an out-of-scope link to an index page that has no record yet is
    queued for a status check under [protocol//hostname/], with the protocol
    and the host name of the configuration where the link has none. *)
Lemma cleanURL_out_of_scope_index URLParse dirname configuration now link currentURL
    referrer st :
  (0 < String.length link)%nat ->
  JS.firstIs "#" link = false ->
  JS.firstIs "?" link = false ->
  (JS.substr0 2 link =? "//")%string = false ->
  isIntendedSubPath configuration (URLParse link) = false ->
  isIndexPage URLParse link = true ->
  let URLParts := URLParse link in
  let alias :=
    ((if negb (JS.truthy (Some (URL.protocol URLParts)))
      then protocol configuration else URL.protocol URLParts)
     ++ "//"
     ++ (if negb (JS.truthy (Some (URL.hostname URLParts)))
         then host configuration else URL.hostname URLParts)
     ++ "/")%string in
  pvGet alias (pagesVisited st) = None ->
  cleanURL URLParse dirname configuration now (Some link) currentURL referrer st =
  (None, snd (queueURLToCrawl configuration now alias referrer false st)).
Proof.
  intros Hlen Hhash Hquery Hslashes Hscope Hindex URLParts alias Hget. unfold cleanURL.
  apply Nat.ltb_lt in Hlen. rewrite Hlen, Hhash, Hquery, Hslashes. cbn [negb andb].
  rewrite Hscope, Hindex. fold URLParts. fold alias. now rewrite Hget.
Qed.




(** ** The completion pass *)

(** X27 -- scoring a record that has been scored throws: the first run
    removed [terms]. *)
Lemma scorePage_again dateValue now now' pageDetails scored :
  JS.truthyB (analyze pageDetails) = true ->
  scorePage dateValue now pageDetails = Returned scored ->
  scorePage dateValue now' scored = TypeError.
Proof.
  unfold scorePage. intros Ha. rewrite Ha.
  destruct (terms pageDetails) as [t|]; [|discriminate].
  intros H. injection H as <-. cbn [storeScore analyze terms]. now rewrite Ha.
Qed.

Lemma scorePage_statusCode dateValue now pageDetails scored :
  scorePage dateValue now pageDetails = Returned scored ->
  statusCode scored = statusCode pageDetails.
Proof.
  unfold scorePage.
  destruct (JS.truthyB (analyze pageDetails)); [|intros H; now injection H as <-].
  destruct (terms pageDetails); [|discriminate]. intros H. now injection H as <-.
Qed.

(** When the completion pass returns, it has removed exactly the records
    whose [statusCode] is -1 and kept the keys of the others in order. *)
Lemma adjustTermScores_returned dateValue now pv :
  snd (adjustTermScores dateValue now pv) = Returned tt ->
  allRecords (fun d => JS.isNumber (statusCode d) (-1) = false)
    (fst (adjustTermScores dateValue now pv)) /\
  pvKeys (fst (adjustTermScores dateValue now pv)) =
  pvKeys (filter (fun entry => negb (JS.isNumber (statusCode (snd entry)) (-1))) pv).
Proof.
  unfold allRecords.
  induction pv as [|[URL d] rest IH]; cbn [adjustTermScores filter snd].
  - intros _. split; [constructor | reflexivity].
  - destruct (JS.isNumber (statusCode d) (-1)) eqn:Hcode; cbn [negb]; [exact IH|].
    assert (Hkeep : forall d',
              statusCode d' = statusCode d ->
              snd (adjustTermScores dateValue now rest) = Returned tt ->
              Forall (fun entry => JS.isNumber (statusCode (snd entry)) (-1) = false)
                ((URL, d') :: fst (adjustTermScores dateValue now rest)) /\
              pvKeys ((URL, d') :: fst (adjustTermScores dateValue now rest)) =
              pvKeys ((URL, d) ::
                      filter (fun entry => negb (JS.isNumber (statusCode (snd entry)) (-1)))
                        rest)).
    { intros d' Hsame Hout. destruct (IH Hout) as [Hall Hkeys]. split.
      - constructor; [cbn [snd]; now rewrite Hsame | exact Hall].
      - cbn [pvKeys map fst]. unfold pvKeys in Hkeys. now rewrite Hkeys. }
    destruct (JS.truthyB (analyze d) && JS.isNumber (pageScore d) 0)%bool.
    + destruct (scorePage dateValue now d) as [scored|] eqn:Hs; [|discriminate].
      destruct (adjustTermScores dateValue now rest) as [rest' outcome].
      cbn [fst snd] in *. intros Hout.
      apply Hkeep; [now apply scorePage_statusCode in Hs | exact Hout].
    + destruct (adjustTermScores dateValue now rest) as [rest' outcome].
      cbn [fst snd] in *. intros Hout. now apply Hkeep.
Qed.

(** C10 on the crawl restricted to [/docs]: the start page is scored
    once, with [terms] present, and its score is 0; when the fetch of its
    link fails and the queue is empty, the completion pass scores the start
    page again, [terms] is gone, and the call ends in a [TypeError]. *)
Lemma C10_second_scoring_throws :
  let start := "https://host/docs/index.html" in
  option_map analyze (pvGet start (pagesVisited docsCrawl)) = Some (Some true) /\
  option_map pageScore (pvGet start (pagesVisited docsCrawl)) = Some (Some 0) /\
  option_map terms (pvGet start (pagesVisited docsCrawl)) = Some None /\
  snd (adjustTermScores sampleDates 6 (pagesVisited docsCrawl)) = TypeError /\
  snd (analyzePage sampleDates UrlParse.parse Path.dirname docsConfiguration 6
         Failed 0 docsCrawl) = TypeError.
Proof. cbv zeta. repeat split; reflexivity. Qed.

(** C8 on the same crawl: the completion pass stops at the start page
    with a [TypeError], and the record of the link that was never answered
    stays in the map with [statusCode] -1. *)
Lemma C8_pending_record_survives :
  let link := "https://host/docs/page2.html" in
  let done := analyzePage sampleDates UrlParse.parse Path.dirname docsConfiguration 6
                Failed 0 docsCrawl in
  snd done = TypeError /\
  option_map statusCode (pvGet link (pagesVisited (fst done))) = Some (Some (-1)) /\
  pvKeys (pagesVisited (fst done)) = ["https://host/docs/index.html"; link].
Proof. cbv zeta. repeat split; reflexivity. Qed.

(** ** The version of a record *)

Lemma allRecords_pvSet P URL d pv :
  allRecords P pv -> P d -> allRecords P (pvSet URL d pv).
Proof.
  unfold allRecords. intros Hall Hd.
  induction pv as [|[k d0] rest IH]; simpl.
  - constructor; auto.
  - inversion Hall as [|? ? Hhead Htail]; subst.
    destruct (k =? URL)%string; constructor; auto.
Qed.

Lemma allRecords_pvGet P URL d pv :
  allRecords P pv -> pvGet URL pv = Some d -> P d.
Proof.
  unfold allRecords. intros Hall.
  induction pv as [|[k d0] rest IH]; simpl; [discriminate|].
  inversion Hall as [|? ? Hhead Htail]; subst.
  destruct (k =? URL)%string; auto.
  intros H. injection H as <-. exact Hhead.
Qed.

Lemma queueURLToCrawl_versionUnset configuration now URL referrer analyze st :
  allRecords versionUnset (pagesVisited st) ->
  allRecords versionUnset
    (pagesVisited (snd (queueURLToCrawl configuration now URL referrer analyze st))).
Proof.
  intros Hall. unfold queueURLToCrawl.
  destruct (pvGet (queueKey configuration URL) (pagesVisited st)); cbn [snd pagesVisited]; auto.
  apply allRecords_pvSet; auto. left. reflexivity.
Qed.

Lemma cleanURL_versionUnset URLParse dirname configuration now proposedURL currentURL
    referrer st :
  allRecords versionUnset (pagesVisited st) ->
  allRecords versionUnset
    (pagesVisited
       (snd (cleanURL URLParse dirname configuration now proposedURL currentURL referrer st))).
Proof.
  intros Hall. unfold cleanURL.
  repeat match goal with
         | |- context [match ?x with _ => _ end] =>
             lazymatch x with
             | queueURLToCrawl _ _ _ _ _ _ => fail
             | _ => destruct x
             end
         end;
    cbn [snd]; auto using queueURLToCrawl_versionUnset.
Qed.

Lemma followLink_versionUnset URLParse dirname configuration now currentPath proposedURL
    st anchor :
  allRecords versionUnset (pagesVisited st) ->
  allRecords versionUnset
    (pagesVisited
       (followLink URLParse dirname configuration now currentPath proposedURL st anchor)).
Proof.
  intros Hall. unfold followLink.
  pose proof (cleanURL_versionUnset URLParse dirname configuration now anchor currentPath
                proposedURL st Hall) as Hclean.
  destruct (cleanURL URLParse dirname configuration now anchor currentPath proposedURL st)
    as [[link|] st']; cbn [snd] in Hclean; auto using queueURLToCrawl_versionUnset.
Qed.

Lemma followLinks_versionUnset URLParse dirname configuration now currentPath proposedURL
    links st :
  allRecords versionUnset (pagesVisited st) ->
  allRecords versionUnset
    (pagesVisited
       (fold_left (followLink URLParse dirname configuration now currentPath proposedURL)
          links st)).
Proof.
  revert st. induction links as [|anchor links IH]; intros st Hall; simpl; auto.
  apply IH. now apply followLink_versionUnset.
Qed.

Lemma scorePage_versionUnset dateValue now pageDetails scored :
  versionUnset pageDetails ->
  scorePage dateValue now pageDetails = Returned scored ->
  versionUnset scored.
Proof.
  unfold scorePage. intros Hv.
  destruct (JS.truthyB (analyze pageDetails)); [|intros H; now injection H as <-].
  destruct (terms pageDetails); [|discriminate]. intros H. injection H as <-. exact Hv.
Qed.

Lemma adjustTermScores_versionUnset dateValue now pv :
  allRecords versionUnset pv ->
  allRecords versionUnset (fst (adjustTermScores dateValue now pv)).
Proof.
  unfold allRecords. induction pv as [|[URL d] rest IH]; intros Hall; cbn [adjustTermScores].
  - constructor.
  - inversion Hall as [|? ? Hhead Htail]; subst. cbn [snd] in Hhead.
    specialize (IH Htail).
    destruct (JS.isNumber (statusCode d) (-1)); auto.
    destruct (JS.truthyB (analyze d) && JS.isNumber (pageScore d) 0)%bool.
    + destruct (scorePage dateValue now d) as [scored|] eqn:Hs; cbn [fst]; auto.
      destruct (adjustTermScores dateValue now rest) as [rest' outcome]. cbn [fst] in *.
      constructor; auto. cbn [snd]. eapply scorePage_versionUnset; eauto.
    + destruct (adjustTermScores dateValue now rest) as [rest' outcome]. cbn [fst] in *.
      constructor; auto.
Qed.

Lemma versionUnset_setCompleteTime now d :
  versionUnset d -> versionUnset (setCompleteTime now d).
Proof. intros H. exact H. Qed.

Lemma versionUnset_setAnalyzeFalse d :
  versionUnset d -> versionUnset (setAnalyzeFalse d).
Proof. intros [H|(H1 & H2 & H3)]; [left | right]; cbn; auto. Qed.

Lemma versionUnset_readDocument d doc :
  versionUnset d -> versionUnset (readDocument d doc).
Proof. intros H. exact H. Qed.

Lemma recordResponse_versionUnset dateValue URLParse dirname configuration now response st :
  allRecords versionUnset (pagesVisited st) ->
  allRecords versionUnset
    (pagesVisited
       (fst (recordResponse dateValue URLParse dirname configuration now response st))).
Proof.
  intros Hall. unfold recordResponse.
  set (known := pvGet (href response) (pagesVisited st)).
  set (pageDetails := setStatusCode (status response)
                        match known with Some d => d | None => emptyDetails end).
  assert (Hknown : versionUnset pageDetails \/ known = None).
  { subst pageDetails. destruct known as [d|] eqn:Hk; [left|right; reflexivity].
    exact (allRecords_pvGet _ _ _ _ Hall Hk). }
  assert (Hfalse : versionUnset (setCompleteTime now (setAnalyzeFalse pageDetails))).
  { destruct Hknown as [Hv | Hnone].
    - now apply versionUnset_setCompleteTime, versionUnset_setAnalyzeFalse.
    - subst pageDetails. rewrite Hnone. right. repeat split. }
  destruct (match known with
            | Some d => match statusCode d with Some c => c <? 0 | None => false end
            | None => true
            end); cbn [fst]; auto.
  destruct ((status response <? 300) && JS.truthyB (analyze pageDetails))%bool eqn:Hgo.
  - destruct (dollar response) as [doc|].
    + set (followed := fold_left _ (anchors doc) st).
      assert (Hfollowed : allRecords versionUnset (pagesVisited followed))
        by (apply followLinks_versionUnset; exact Hall).
      destruct (scorePage dateValue now (readDocument pageDetails doc)) as [scored|] eqn:Hs;
        cbn [fst pagesVisited]; auto.
      apply allRecords_pvSet; auto.
      apply versionUnset_setCompleteTime.
      apply (scorePage_versionUnset _ _ _ _) in Hs; [exact Hs|].
      apply versionUnset_readDocument.
      destruct Hknown as [Hv | Hnone]; [exact Hv|].
      subst pageDetails. rewrite Hnone in Hgo. cbn in Hgo.
      now rewrite andb_false_r in Hgo.
    + cbn [fst pagesVisited]. apply allRecords_pvSet; auto.
  - cbn [fst pagesVisited]. apply allRecords_pvSet; auto.
Qed.

Lemma analyzePage_versionUnset dateValue URLParse dirname configuration now fetched
    queueSize st :
  allRecords versionUnset (pagesVisited st) ->
  allRecords versionUnset
    (pagesVisited
       (fst (analyzePage dateValue URLParse dirname configuration now fetched queueSize st))).
Proof.
  intros Hall. unfold analyzePage.
  assert (Hstep : allRecords versionUnset
            (pagesVisited
               (fst match fetched with
                    | Failed => (st, Returned tt)
                    | Responded response =>
                        recordResponse dateValue URLParse dirname configuration now response st
                    end))).
  { destruct fetched; cbn [fst]; auto using recordResponse_versionUnset. }
  destruct (match fetched with
            | Failed => (st, Returned tt)
            | Responded response =>
                recordResponse dateValue URLParse dirname configuration now response st
            end) as [st' outcome].
  cbn [fst] in Hstep. destruct outcome; cbn [fst]; auto.
  destruct (Nat.eqb queueSize 0); cbn [fst]; auto.
  pose proof (adjustTermScores_versionUnset dateValue now _ Hstep) as Hadj.
  destruct (adjustTermScores dateValue now (pagesVisited st')) as [pv outcome].
  exact Hadj.
Qed.

Lemma reachable_versionUnset dateValue URLParse dirname configuration st :
  reachable dateValue URLParse dirname configuration st ->
  allRecords versionUnset (pagesVisited st).
Proof.
  induction 1 as [now | st now fetched queueSize Hreach IH].
  - unfold startCrawler. apply queueURLToCrawl_versionUnset. constructor.
  - now apply analyzePage_versionUnset.
Qed.

Lemma recordResponse_analyzed dateValue URLParse dirname configuration now response st
    d doc scored :
  pvGet (href response) (pagesVisited st) = Some d ->
  statusCode d = Some (-1) ->
  (status response <? 300) = true ->
  JS.truthyB (analyze d) = true ->
  dollar response = Some doc ->
  scorePage dateValue now (readDocument (setStatusCode (status response) d) doc)
  = Returned scored ->
  pvGet (href response)
    (pagesVisited
       (fst (recordResponse dateValue URLParse dirname configuration now response st)))
  = Some (setCompleteTime now scored).
Proof.
  intros Hget Hcode Hstatus Ha Hdoc Hs. unfold recordResponse.
  rewrite Hget, Hcode.
  change (match Some (-1) with Some c => c <? 0 | None => false end) with true.
  cbv beta iota zeta.
  change (analyze (setStatusCode (status response) d)) with (analyze d).
  rewrite Hstatus, Ha, Hdoc. cbn [andb]. rewrite Hs. cbn [fst pagesVisited].
  apply pvGet_pvSet_same.
Qed.

(** C9, as the code has it -- the version of a record.  In every state of
    a crawl run, a record is either one that the frontier created, and then
    its [version] is the empty string it was initialized to, or one that
    [analyzePage] made from [{}] for a response whose URL was never queued,
    and then it has no [version] and no referrer and is never analyzed.  So
    no record has a [version] that counts as set, and [scorePage] never takes
    its "good: page has product and version" branch: when a pending record
    is answered with a page to analyze, the score and the analysis that are
    stored in [pagesVisited] are those left by the freshness rule, then -1
    and "bad: page has product but missing version" if the product meta tag
    has content and nothing otherwise, then what the H1 rule adds. *)
Theorem C9_version_never_set
    (dateValue : string -> option Z) (URLParse : string -> URL.Parts)
    (dirname : string -> string) (configuration : Configuration)
    (st : Crawl) (URL : string) (d : PageDetails) :
  reachable dateValue URLParse dirname configuration st ->
  pvGet URL (pagesVisited st) = Some d ->
  (version d = Some "" \/
   (version d = None /\ referrer d = None /\ analyze d = Some false)) /\
  JS.truthy (version d) = false /\
  (referrer d <> None -> version d = Some "") /\
  (JS.truthyB (analyze d) = true -> version d = Some "") /\
  (forall s,
     productRule d s =
     if JS.truthy (product d)
     then judge (-1) "; bad: page has product but missing version." s
     else s) /\
  (forall now response doc,
     href response = URL ->
     statusCode d = Some (-1) ->
     (status response <? 300) = true ->
     JS.truthyB (analyze d) = true ->
     dollar response = Some doc ->
     let pageDetails := readDocument (setStatusCode (status response) d) doc in
     let headerOneWords := headerWords pageDetails in
     let fresh :=
       freshnessRule dateValue now pageDetails
         (keywordRule pageDetails headerOneWords
            (descriptionRule pageDetails headerOneWords
               (titleRule pageDetails headerOneWords (startScoring (docTerms doc))))) in
     let header :=
       if JS.truthy (headerOne pageDetails)
       then 1 + headerWordsInTitle fresh + headerWordsInDescription fresh
            + headerWordsInKeywords fresh
       else -1 in
     let headerClause :=
       (if JS.truthy (headerOne pageDetails)
        then "; good: page has H1, " ++ JS.numberToString (headerWordsInTitle fresh)
             ++ " in title, " ++ JS.numberToString (headerWordsInDescription fresh)
             ++ " in description, " ++ JS.numberToString (headerWordsInKeywords fresh)
             ++ " in keywords"
        else "; bad: page missing H1.")%string in
     exists stored,
       pvGet URL
         (pagesVisited
            (fst (recordResponse dateValue URLParse dirname
                    (startConfiguration dirname configuration) now response st)))
       = Some stored /\
       version stored = Some "" /\
       (JS.truthy (metaProduct doc) = true ->
        pageScore stored = Some (score fresh - 1 + header) /\
        pageAnalysis stored =
        Some (analysis fresh ++ "; bad: page has product but missing version."
              ++ headerClause)%string) /\
       (JS.truthy (metaProduct doc) = false ->
        pageScore stored = Some (score fresh + header) /\
        pageAnalysis stored = Some (analysis fresh ++ headerClause)%string)).
Proof.
  intros Hreach Hget.
  pose proof (allRecords_pvGet _ _ _ _ (reachable_versionUnset _ _ _ _ _ Hreach) Hget) as Hv.
  assert (Hfalsy : JS.truthy (version d) = false).
  { destruct Hv as [H | (H & _)]; rewrite H; reflexivity. }
  assert (Hanalyze : JS.truthyB (analyze d) = true -> version d = Some "").
  { intros Ha. destruct Hv as [H | (_ & _ & H)]; auto. rewrite H in Ha. discriminate. }
  split; [exact Hv|]. split; [exact Hfalsy|]. split.
  { intros Href. destruct Hv as [H | (_ & H & _)]; [exact H | contradiction]. }
  split; [exact Hanalyze|]. split.
  { intros s. unfold productRule. rewrite Hfalsy. reflexivity. }
  intros now response doc Hhref Hcode Hstatus Ha Hdoc pageDetails headerOneWords fresh
    header headerClause.
  pose proof (scorePage_stored dateValue now pageDetails (docTerms doc) Ha eq_refl) as Hs.
  exists (setCompleteTime now
            (storeScore pageDetails
               (scoreRules dateValue now pageDetails (startScoring (docTerms doc))))).
  split.
  { rewrite <- Hhref in *.
    exact (recordResponse_analyzed dateValue URLParse dirname
             (startConfiguration dirname configuration) now response st d doc _
             Hget Hcode Hstatus Ha Hdoc Hs). }
  split; [exact (Hanalyze Ha)|].
  cbn [setCompleteTime storeScore pageScore pageAnalysis]. unfold scoreRules.
  fold headerOneWords. fold fresh.
  destruct (lateRules_stored pageDetails fresh) as [Hscore Hanalysis].
  rewrite Hscore, Hanalysis.
  change (product pageDetails) with (metaProduct doc).
  change (version pageDetails) with (version d).
  rewrite Hfalsy. fold header. fold headerClause.
  split; intros Hp; rewrite Hp; (split; [f_equal; lia | reflexivity]).
Qed.

(** The start page of the crawl restricted to [/docs], answered on
    2 November 2026 with the title "Docs Home", the first header "docs home",
    that date and the product "Suite": it is stored with the score 5 and the
    clause of the product without version. *)
Lemma C9_version_never_set_witness :
  exists stored,
    pvGet "https://host/docs/index.html"
      (pagesVisited
         (fst (recordResponse sampleDates UrlParse.parse Path.dirname docsConfiguration
                 1793577600000 suiteHome (startCrawler Path.dirname 0 docsConfiguration))))
    = Some stored /\
    version stored = Some "" /\
    pageScore stored = Some 5 /\
    pageAnalysis stored =
    Some "good: 1 title words appear in body.; very bad: no description.; very bad: no keywords.; good: page is recent.; bad: page has product but missing version.; good: page has H1, 2 in title, 0 in description, 0 in keywords"%string.
Proof.
  destruct (C9_version_never_set sampleDates UrlParse.parse Path.dirname docsConfiguration
              (startCrawler Path.dirname 0 docsConfiguration)
              "https://host/docs/index.html"
              (newPageDetails 0 "https://host/docs/index.html" true)
              (reach_start sampleDates UrlParse.parse Path.dirname docsConfiguration 0)
              eq_refl)
    as (_ & _ & _ & _ & _ & Hstored).
  destruct (Hstored 1793577600000 suiteHome
              {| docTitle := "Docs Home"; metaDescription := None; metaKeywords := None;
                 metaLastModified := Some "2026-11-02T00:00:00.000Z";
                 metaProduct := Some "Suite"; headerOneText := "docs home";
                 anchors := [Some "/docs/page2"; Some "https://other.com/x"];
                 docTerms := {| vocabulary := ["doc"; "home"]; data0 := [3; 2] |} |}
              eq_refl eq_refl eq_refl eq_refl eq_refl)
    as [stored (Hget & Hversion & Hproduct & _)].
  exists stored. split; [exact Hget|]. split; [exact Hversion|].
  exact (Hproduct eq_refl).
Defined.

(** C9 as the specification states it does not hold.  When the start page
    is answered under a URL that was never queued, the record stored for that
    URL has no [version] at all, not the empty string.  And a page whose
    product meta tag is there with an empty content is scored without the
    product penalty: -1 for the missing date, -1 for the missing H1 and +2
    for its title, with no product clause. *)
Lemma C9_counterexample :
  let st := fst (analyzePage sampleDates UrlParse.parse Path.dirname docsConfiguration 5
                   (Responded movedHome) 0 (startCrawler Path.dirname 0 docsConfiguration)) in
  option_map version (pvGet "https://host/docs/" (pagesVisited st)) = Some None /\
  option_map version (pvGet "https://host/docs/" (pagesVisited st)) <> Some (Some ""%string) /\
  product blankProductPage = Some ""%string /\
  option_map pageScore
    match scorePage sampleDates 0 blankProductPage with
    | Returned scored => Some scored
    | TypeError => None
    end = Some (Some (-1)) /\
  option_map pageAnalysis
    match scorePage sampleDates 0 blankProductPage with
    | Returned scored => Some scored
    | TypeError => None
    end =
  Some (Some "good: 1 title words appear in body.; very bad: no description.; very bad: no keywords.; bad: page missing last-modified.; bad: page missing H1."%string).
Proof. cbv zeta. repeat split; try reflexivity. discriminate. Qed.

(** * Further properties of the source *)

(** ** Sorting the terms *)

Lemma insertByFrequency_perm a l : Permutation (a :: l) (insertByFrequency a l).
Proof.
  induction l as [|b l IH]; simpl; auto.
  destruct (frequency b - frequency a <=? 0); auto.
  rewrite perm_swap. now constructor.
Qed.

Lemma sortDescending_perm l : Permutation l (sortDescending l).
Proof.
  induction l as [|a l IH]; simpl; auto.
  rewrite <- insertByFrequency_perm. now constructor.
Qed.

Lemma insertByFrequency_sorted a l :
  StronglySorted (fun x y => frequency x >= frequency y) l ->
  StronglySorted (fun x y => frequency x >= frequency y) (insertByFrequency a l).
Proof.
  induction 1 as [|b l Hsorted IH Hall]; simpl.
  - repeat constructor.
  - destruct (frequency b - frequency a <=? 0) eqn:E.
    + apply Z.leb_le in E. constructor; [constructor; auto|].
      constructor; [lia|].
      rewrite Forall_forall in *. intros x Hx. specialize (Hall x Hx). lia.
    + apply Z.leb_gt in E. constructor; auto.
      rewrite Forall_forall in *. intros x Hx.
      apply (Permutation_in _ (Permutation_sym (insertByFrequency_perm a l))) in Hx.
      destruct Hx as [<-|Hx]; [lia | auto].
Qed.

Lemma sortDescending_sorted l :
  StronglySorted (fun x y => frequency x >= frequency y) (sortDescending l).
Proof.
  induction l as [|a l IH]; simpl; [constructor | now apply insertByFrequency_sorted].
Qed.

(** X1 -- [sortWordsByFrequency] returns the terms that are not filtered
    out, each with its count, in an order where no entry has a smaller
    frequency than a later one. *)
Theorem sortWordsByFrequency_sorted (wordList : list string) (frequencyList : list Z) :
  Permutation (combineWords wordList frequencyList)
    (sortWordsByFrequency wordList frequencyList) /\
  StronglySorted (fun x y => frequency x >= frequency y)
    (sortWordsByFrequency wordList frequencyList).
Proof.
  split; [apply sortDescending_perm | apply sortDescending_sorted].
Qed.

Lemma insertByFrequency_filter f a l :
  filter (fun x => frequency x =? f) (insertByFrequency a l) =
  filter (fun x => frequency x =? f) (a :: l).
Proof.
  induction l as [|b l IH]; simpl; auto.
  destruct (frequency b - frequency a <=? 0) eqn:E; [reflexivity|].
  apply Z.leb_gt in E. simpl in *. rewrite IH.
  destruct (frequency a =? f) eqn:Ea; [|reflexivity].
  apply Z.eqb_eq in Ea.
  destruct (frequency b =? f) eqn:Eb; [|reflexivity].
  apply Z.eqb_eq in Eb. lia.
Qed.

(** X2 -- the sort is stable: the entries of any one frequency come out in
    the order in which their terms stand in the vocabulary. *)
Theorem sortWordsByFrequency_stable (wordList : list string) (frequencyList : list Z)
    (f : Z) :
  filter (fun x => frequency x =? f) (sortWordsByFrequency wordList frequencyList) =
  filter (fun x => frequency x =? f) (combineWords wordList frequencyList).
Proof.
  unfold sortWordsByFrequency.
  induction (combineWords wordList frequencyList) as [|a l IH]; [reflexivity|].
  cbn [sortDescending fold_right]. fold (sortDescending l).
  rewrite insertByFrequency_filter. simpl. now rewrite IH.
Qed.

Lemma combineWords_terms wordList frequencyList w :
  (length wordList <= length frequencyList)%nat ->
  In w (map term (combineWords wordList frequencyList)) <->
  In w wordList /\ JS.includes specialWordFilter w = false.
Proof.
  revert frequencyList.
  induction wordList as [|x ws IH]; intros [|f fs] Hlen;
    cbn [combineWords map In length] in *; try lia; try tauto.
  specialize (IH fs ltac:(lia)).
  destruct (JS.includes specialWordFilter x) eqn:E.
  - rewrite IH. split.
    + intros [H1 H2]. auto.
    + intros [[->|H1] H2]; [congruence | auto].
  - cbn [map In term]. rewrite IH. split.
    + intros [<-|[H1 H2]]; auto.
    + intros [[->|H1] H2]; auto.
Qed.

(** X3 -- with one count per term, the terms of the sorted list are
    exactly the words of the vocabulary that are not in [specialWordFilter]. *)
Theorem sortWordsByFrequency_terms (wordList : list string) (frequencyList : list Z)
    (w : string) :
  (length wordList <= length frequencyList)%nat ->
  In w (map term (sortWordsByFrequency wordList frequencyList)) <->
  In w wordList /\ JS.includes specialWordFilter w = false.
Proof.
  intros Hlen. rewrite <- (combineWords_terms wordList frequencyList w Hlen).
  unfold sortWordsByFrequency.
  pose proof (Permutation_map term (sortDescending_perm (combineWords wordList frequencyList)))
    as Hperm.
  split; intros H.
  - now apply (Permutation_in _ (Permutation_sym Hperm)).
  - now apply (Permutation_in _ Hperm).
Qed.

(** Of the vocabulary "seo", "==", "page" the sorted list keeps "seo". *)
Lemma sortWordsByFrequency_terms_witness :
  In "seo" (map term (sortWordsByFrequency ["seo"; "=="; "page"] [2; 7; 3])).
Proof.
  apply (proj2 (sortWordsByFrequency_terms ["seo"; "=="; "page"] [2; 7; 3] "seo"
                  ltac:(simpl; lia))).
  split; [simpl; auto | reflexivity].
Defined.

(** ** Printing the terms *)

Lemma concat_cons sep x xs :
  String.concat sep (x :: xs) =
  (x ++ fold_right (fun y r => sep ++ y ++ r) "" xs)%string.
Proof.
  revert x. induction xs as [|y xs IH]; intros x.
  - simpl. now rewrite append_empty_r.
  - change (String.concat sep (x :: y :: xs))
      with (x ++ sep ++ String.concat sep (y :: xs))%string.
    rewrite (IH y). reflexivity.
Qed.

(** X4 -- [frequencyToString] writes every entry as "term: frequency" and
    joins the entries with ", ": there is no separator before the first entry
    or after the last, and the empty list gives the empty string. *)
Theorem frequencyToString_join (wordFrequencyList : list WordFrequency) :
  frequencyToString wordFrequencyList =
  String.concat ", "
    (map (fun word => (term word ++ ": " ++ JS.numberToString (frequency word))%string)
       wordFrequencyList).
Proof.
  unfold frequencyToString.
  set (item := fun word => (term word ++ ": " ++ JS.numberToString (frequency word))%string).
  set (step := fun orderedString word =>
                 (orderedString ++ (if (orderedString =? "")%string then "" else ", ")
                  ++ term word ++ ": " ++ JS.numberToString (frequency word))%string).
  assert (Hitem : forall word, item word <> ""%string).
  { intros word. unfold item. destruct (term word); discriminate. }
  assert (Hfold : forall l acc, acc <> ""%string ->
            fold_left step l acc =
            (acc ++ fold_right (fun y r => ", " ++ y ++ r) "" (map item l))%string).
  { induction l as [|word l IH]; intros acc Hacc; simpl.
    - now rewrite append_empty_r.
    - rewrite IH.
      + unfold step. apply String.eqb_neq in Hacc. rewrite Hacc.
        fold (item word). now rewrite !append_assoc.
      + unfold step. now apply append_nonempty_l. }
  destruct wordFrequencyList as [|word l]; [reflexivity|].
  cbn [fold_left map]. rewrite concat_cons.
  replace (step ""%string word) with (item word) by reflexivity.
  apply Hfold, Hitem.
Qed.

(** ** Words in common *)

Lemma indexOf_zero l w :
  (JS.indexOf l w =? 0) =
  match l with
  | [] => false
  | first :: _ => (first =? w)%string
  end.
Proof.
  destruct l as [|first rest]; [reflexivity|]. cbn [JS.indexOf].
  destruct (first =? w)%string; [reflexivity|].
  assert (Hge : forall l', -1 <= JS.indexOf l' w).
  { induction l' as [|x l' IH]; cbn [JS.indexOf]; [lia|].
    destruct (x =? w)%string; [lia|].
    destruct (JS.indexOf l' w <? 0) eqn:E; [lia|]. apply Z.ltb_ge in E. lia. }
  specialize (Hge rest).
  destruct (JS.indexOf rest w <? 0) eqn:E; [reflexivity|].
  apply Z.ltb_ge in E. apply Z.eqb_neq. lia.
Qed.

Lemma count_fold (f : string -> bool) l n :
  fold_left (fun count item => if f item then count + 1 else count) l n =
  n + Z.of_nat (length (filter f l)).
Proof.
  revert n. induction l as [|x l IH]; intros n; cbn [fold_left filter].
  - simpl. lia.
  - rewrite IH. destruct (f x); cbn [length]; lia.
Qed.

(** X5 -- [arrayWordsInCommon] never looks at the shorter list: both
    [largerList] and [shorterList] are the longer of the two lists (the first
    on a tie), and the result is the number of its words that differ from its
    first word. *)
Theorem arrayWordsInCommon_longer_only (listOne listTwo : list string) :
  arrayWordsInCommon listOne listTwo =
  match (if Nat.leb (length listTwo) (length listOne) then listOne else listTwo) with
  | [] => 0
  | first :: rest =>
      Z.of_nat (length (filter (fun w => negb (first =? w)%string) (first :: rest)))
  end.
Proof.
  unfold arrayWordsInCommon.
  assert (Hsame : (if Nat.ltb (length listOne) (length listTwo) then listTwo else listOne)
                  = (if Nat.leb (length listTwo) (length listOne) then listOne else listTwo)).
  { destruct (Nat.leb (length listTwo) (length listOne)) eqn:E.
    - apply Nat.leb_le in E. destruct (Nat.ltb_spec (length listOne) (length listTwo)); [lia|].
      reflexivity.
    - apply Nat.leb_gt in E. destruct (Nat.ltb_spec (length listOne) (length listTwo)); [|lia].
      reflexivity. }
  rewrite Hsame.
  set (longer := if Nat.leb (length listTwo) (length listOne) then listOne else listTwo).
  rewrite (count_fold (fun item => negb (JS.indexOf longer item =? 0)) longer 0).
  destruct longer as [|first rest] eqn:El; [reflexivity|].
  rewrite Z.add_0_l. f_equal. f_equal.
  apply filter_ext. intros w. now rewrite indexOf_zero.
Qed.

(** ** Removing HTML entities *)

Lemma removeFrom_length skip s :
  (String.length (Entity.removeFrom skip s) <= String.length s)%nat.
Proof.
  revert skip. induction s as [|c r IH]; intros skip; cbn [Entity.removeFrom]; [lia|].
  destruct skip as [|k].
  - destruct (Entity.matchLength (String c r)).
    + specialize (IH (n - 1)%nat). simpl. lia.
    + specialize (IH 0%nat). simpl. lia.
  - specialize (IH k). simpl. lia.
Qed.

(** X6 -- [cleanHTMLEntities] only removes characters: its result is
    never longer than its argument. *)
Theorem cleanHTMLEntities_shorter (sourceString : string) :
  (String.length (cleanHTMLEntities sourceString) <= String.length sourceString)%nat.
Proof. apply removeFrom_length. Qed.

Lemma removeFrom_plain a rest :
  ~ In "&"%char (list_ascii_of_string a) ->
  Entity.removeFrom 0 (a ++ rest) = (a ++ Entity.removeFrom 0 rest)%string.
Proof.
  induction a as [|c a IH]; intros Hno; [reflexivity|].
  cbn [list_ascii_of_string In] in Hno.
  change (String c a ++ rest)%string with (String c (a ++ rest)%string).
  cbn [Entity.removeFrom].
  assert (Hc : Entity.matchLength (String c (a ++ rest)) = None).
  { unfold Entity.matchLength.
    destruct c as [[|] [|] [|] [|] [|] [|] [|] [|]]; try reflexivity.
    exfalso. apply Hno. left. reflexivity. }
  rewrite Hc, IH by tauto. reflexivity.
Qed.

(** X7 -- a text without an ampersand goes through [cleanHTMLEntities]
    unchanged. *)
Theorem cleanHTMLEntities_plain (sourceString : string) :
  ~ In "&"%char (list_ascii_of_string sourceString) ->
  cleanHTMLEntities sourceString = sourceString.
Proof.
  intros Hno. unfold cleanHTMLEntities.
  rewrite <- (append_empty_r sourceString) at 1.
  rewrite (removeFrom_plain sourceString "" Hno). apply append_empty_r.
Qed.

(** The text "title: Docs - home" has no ampersand. *)
Lemma cleanHTMLEntities_plain_witness :
  cleanHTMLEntities "title: Docs - home" = "title: Docs - home".
Proof.
  apply (cleanHTMLEntities_plain "title: Docs - home").
  simpl. intros H.
  repeat (destruct H as [H|H]; [discriminate H|]). exact H.
Defined.

Lemma removeFrom_skip x k rest :
  Entity.removeFrom (String.length x + k) (x ++ rest) = Entity.removeFrom k rest.
Proof.
  induction x as [|c x IH]; [reflexivity|]. simpl. exact IH.
Qed.

Lemma span_name name rest :
  (forall c, In c (list_ascii_of_string name) -> Entity.isAlnum c = true) ->
  Entity.span Entity.isAlnum (name ++ String ";" rest) = String.length name /\
  Entity.drop (String.length name) (name ++ String ";" rest) = String ";" rest.
Proof.
  induction name as [|c name IH]; intros Hall.
  - split; reflexivity.
  - cbn [list_ascii_of_string In] in Hall.
    change (String c name ++ String ";" rest)%string
      with (String c (name ++ String ";" rest)%string).
    cbn [Entity.span Entity.drop String.length].
    rewrite (Hall c) by auto.
    destruct IH as [Hs Hd]; [intros x Hx; apply Hall; auto|].
    now rewrite Hs, Hd.
Qed.

(** X8 -- a named entity is removed whole and what stands around it is
    kept: for a text [before] without ampersand and a non-empty name of
    letters and digits, [before&name;after] is cleaned to [before] followed by
    the cleaned [after]. *)
Theorem cleanHTMLEntities_entity (before name after : string) :
  ~ In "&"%char (list_ascii_of_string before) ->
  name <> ""%string ->
  (forall c, In c (list_ascii_of_string name) -> Entity.isAlnum c = true) ->
  cleanHTMLEntities (before ++ String "&" (name ++ String ";" after)) =
  (before ++ cleanHTMLEntities after)%string.
Proof.
  intros Hno Hname Hall. unfold cleanHTMLEntities.
  rewrite (removeFrom_plain before _ Hno). f_equal.
  destruct (span_name name after Hall) as [Hspan Hdrop].
  cbn [Entity.removeFrom].
  assert (Hbody : Entity.bodyLength (name ++ String ";" after) = Some (String.length name)).
  { destruct name as [|c name]; [contradiction|].
    assert (Hc : Entity.isAlnum c = true) by (apply Hall; simpl; auto).
    change (String c name ++ String ";" after)%string
      with (String c (name ++ String ";" after)%string) in *.
    unfold Entity.bodyLength. rewrite Hspan.
    destruct c as [[|] [|] [|] [|] [|] [|] [|] [|]]; try reflexivity; discriminate Hc. }
  unfold Entity.matchLength. rewrite Hbody, Hdrop. cbn [JS.firstIs].
  rewrite Ascii.eqb_refl.
  replace (1 + String.length name + 1 - 1)%nat with (String.length name + 1)%nat by lia.
  rewrite <- (removeFrom_skip (name ++ ";")%string 0 after).
  f_equal.
  - clear. induction name as [|c name IH]; simpl; [reflexivity | now rewrite IH].
  - now rewrite append_assoc.
Qed.

(** The entity of "Tom &amp; Jerry" is removed. *)
Lemma cleanHTMLEntities_entity_witness :
  cleanHTMLEntities "Tom &amp; Jerry" = "Tom  Jerry".
Proof.
  apply (cleanHTMLEntities_entity "Tom " "amp" " Jerry").
  - simpl. intros H. repeat (destruct H as [H|H]; [discriminate H|]). exact H.
  - discriminate.
  - simpl. intros c H.
    repeat (destruct H as [H|H]; [subst c; reflexivity|]). contradiction.
Defined.

(** ** The frontier and the resolver *)

Lemma queueURLToCrawl_frame configuration now URL referrer analyze st k d :
  pvGet k (pagesVisited st) = Some d ->
  pvGet k (pagesVisited (snd (queueURLToCrawl configuration now URL referrer analyze st)))
  = Some d.
Proof.
  intros Hk. unfold queueURLToCrawl.
  destruct (pvGet (queueKey configuration URL) (pagesVisited st)) eqn:Hkey;
    cbn [snd pagesVisited]; [exact Hk|].
  rewrite pvGet_pvSet_other; [exact Hk|].
  intros E. rewrite E in Hkey. congruence.
Qed.

(** X9 -- [queueURLToCrawl] never replaces or removes a record: whatever
    is stored under a key before the call is stored under it after the call,
    also under the key of the call itself. *)
Theorem queueURLToCrawl_keeps_records
    (configuration : Configuration) (now : Z) (URL referrer : string) (analyze : bool)
    (st : Crawl) (k : string) (d : PageDetails) :
  pvGet k (pagesVisited st) = Some d ->
  pvGet k (pagesVisited (snd (queueURLToCrawl configuration now URL referrer analyze st)))
  = Some d.
Proof. apply queueURLToCrawl_frame. Qed.

(** The start page stays as it is when it is queued again as a probe. *)
Lemma queueURLToCrawl_keeps_records_witness :
  pvGet "https://host/docs/index.html"
    (pagesVisited
       (snd (queueURLToCrawl docsConfiguration 9 "https://host/docs/index.html"
               "https://host/docs/a.html" false
               (startCrawler Path.dirname 0 docsConfiguration))))
  = Some (newPageDetails 0 "https://host/docs/index.html" true).
Proof.
  apply (queueURLToCrawl_keeps_records docsConfiguration 9 "https://host/docs/index.html"
           "https://host/docs/a.html" false (startCrawler Path.dirname 0 docsConfiguration)).
  reflexivity.
Defined.

Ltac cleanURL_cases :=
  unfold cleanURL;
  repeat match goal with
         | |- context [match ?x with _ => _ end] =>
             lazymatch x with
             | queueURLToCrawl _ _ _ _ _ _ => fail
             | _ => destruct x eqn:?
             end
         end.

(** X10 -- [cleanURL] ignores an anchor without [href], an empty [href],
    a fragment and a query: it answers [null] and touches neither the
    record map nor the queue. *)
Theorem cleanURL_ignored
    (URLParse : string -> URL.Parts) (dirname : string -> string)
    (configuration : Configuration) (now : Z) (proposedURL : option string)
    (currentURL referrer : string) (st : Crawl) :
  proposedURL = None \/ proposedURL = Some ""%string \/
  (exists rest, proposedURL = Some (String "#" rest)) \/
  (exists rest, proposedURL = Some (String "?" rest)) ->
  cleanURL URLParse dirname configuration now proposedURL currentURL referrer st = (None, st).
Proof.
  intros [-> | [-> | [[rest ->] | [rest ->]]]]; reflexivity.
Qed.

(** The link [#top] is ignored. *)
Lemma cleanURL_ignored_witness :
  cleanURL UrlParse.parse Path.dirname docsConfiguration 0 (Some "#top")
    "/docs/index.html" "https://host/docs/index.html" emptyCrawl = (None, emptyCrawl).
Proof.
  apply (cleanURL_ignored UrlParse.parse Path.dirname docsConfiguration 0 (Some "#top")).
  right. right. left. exists "top"%string. reflexivity.
Defined.

Lemma cleanURL_answer URLParse dirname configuration now proposedURL currentURL referrer
    st answer :
  fst (cleanURL URLParse dirname configuration now proposedURL currentURL referrer st)
  = Some answer ->
  snd (cleanURL URLParse dirname configuration now proposedURL currentURL referrer st) = st /\
  exists path, answer = makeURL configuration path.
Proof.
  cleanURL_cases; cbn [fst snd]; intros H; try discriminate H;
    injection H as <-; (split; [reflexivity | eexists; reflexivity]).
Qed.

(** X11 -- whenever [cleanURL] answers a URL, that URL is [makeURL] of
    some path, so it is on the configured protocol and host, and the call
    has changed neither the record map nor the queue. *)
Theorem cleanURL_answer_on_host
    (URLParse : string -> URL.Parts) (dirname : string -> string)
    (configuration : Configuration) (now : Z) (proposedURL : option string)
    (currentURL referrer : string) (st : Crawl) (answer : string) :
  fst (cleanURL URLParse dirname configuration now proposedURL currentURL referrer st)
  = Some answer ->
  snd (cleanURL URLParse dirname configuration now proposedURL currentURL referrer st) = st /\
  exists path, answer = makeURL configuration path.
Proof. apply cleanURL_answer. Qed.

(** The answer for [/docs/page2.html] on the crawl restricted to [/docs]. *)
Lemma cleanURL_answer_on_host_witness :
  exists path, "https://host/docs/page2.html" = makeURL docsConfiguration path.
Proof.
  apply (cleanURL_answer_on_host UrlParse.parse Path.dirname docsConfiguration 0
           (Some "/docs/page2.html") "/docs/index.html" "https://host/docs/index.html"
           emptyCrawl "https://host/docs/page2.html").
  reflexivity.
Defined.

Lemma cleanURL_effect URLParse dirname configuration now proposedURL currentURL referrer
    st :
  snd (cleanURL URLParse dirname configuration now proposedURL currentURL referrer st) = st \/
  (fst (cleanURL URLParse dirname configuration now proposedURL currentURL referrer st)
   = None /\
   exists URL,
     pvGet URL (pagesVisited st) = None /\
     snd (cleanURL URLParse dirname configuration now proposedURL currentURL referrer st)
     = snd (queueURLToCrawl configuration now URL referrer false st)).
Proof.
  cleanURL_cases; cbn [fst snd]; auto; right; (split; [reflexivity|]);
    eexists; (split; [|reflexivity]);
    match goal with
    | H : JS.isUndefined (pvGet ?u _) = true |- pvGet ?u _ = None =>
        destruct (pvGet u (pagesVisited st)); [discriminate H | reflexivity]
    | H : (_ && JS.isUndefined (pvGet ?u _))%bool = true |- pvGet ?u _ = None =>
        apply andb_prop in H; destruct H as [_ H];
        destruct (pvGet u (pagesVisited st)); [discriminate H | reflexivity]
    end.
Qed.

(** X12 -- [cleanURL] changes the state in one way only: when it changes
    it, it has answered [null] and made exactly the call
    [queueURLToCrawl(crawler, URL, referrer, false)] for some URL that had no
    record, so the one record added is a probe. *)
Theorem cleanURL_only_probes
    (URLParse : string -> URL.Parts) (dirname : string -> string)
    (configuration : Configuration) (now : Z) (proposedURL : option string)
    (currentURL referrer : string) (st : Crawl) :
  let result := cleanURL URLParse dirname configuration now proposedURL currentURL
                  referrer st in
  snd result = st \/
  (fst result = None /\
   exists URL,
     pvGet URL (pagesVisited st) = None /\
     snd result = snd (queueURLToCrawl configuration now URL referrer false st)).
Proof. cbv zeta. apply cleanURL_effect. Qed.

(** X13 -- the probe-only downgrade inside the in-scope branch of
    [cleanURL] never runs: for a link that [isIntendedSubPath] accepts, the
    call leaves the record map and the queue as they were. *)
Theorem cleanURL_in_scope_no_effect
    (URLParse : string -> URL.Parts) (dirname : string -> string)
    (configuration : Configuration) (now : Z) (link currentURL referrer : string)
    (st : Crawl) :
  isIntendedSubPath configuration
    (URLParse (if (JS.substr0 2 link =? "//")%string
               then (protocol configuration ++ link)%string else link)) = true ->
  snd (cleanURL URLParse dirname configuration now (Some link) currentURL referrer st) = st.
Proof.
  intros Hscope. unfold cleanURL.
  destruct (_ && _ && _)%bool; [|reflexivity].
  rewrite Hscope.
  destruct (negb (JS.isUndefined (pvGet _ (pagesVisited st))) || _)%bool; [reflexivity|].
  apply isIntendedSubPath_spec in Hscope. destruct Hscope as [_ [Hoff | Hunder]].
  - now rewrite Hoff.
  - rewrite Hunder. cbn [negb andb]. now destruct (subPathOnly configuration).
Qed.

(** The link [/docs/page2.html] on the crawl restricted to [/docs]. *)
Lemma cleanURL_in_scope_no_effect_witness :
  snd (cleanURL UrlParse.parse Path.dirname docsConfiguration 0 (Some "/docs/page2.html")
         "/docs/index.html" "https://host/docs/index.html"
         (startCrawler Path.dirname 0 docsConfiguration))
  = startCrawler Path.dirname 0 docsConfiguration.
Proof.
  apply (cleanURL_in_scope_no_effect UrlParse.parse Path.dirname docsConfiguration 0
           "/docs/page2.html").
  reflexivity.
Defined.

(** ** What every state of a run keeps *)

Section RunInvariant.

Variable dateValue : string -> option Z.
Variable URLParse : string -> URL.Parts.
Variable dirname : string -> string.
Variable configuration : Configuration.

(** A property of a key and its record that every way of storing a record
    establishes or keeps. *)
Variable P : string -> PageDetails -> Prop.

Hypothesis P_probe : forall k now referrer, P k (newPageDetails now referrer false).

Hypothesis P_queued : forall path now referrer,
  P (queueKey configuration (makeURL configuration path)) (newPageDetails now referrer true).

Hypothesis P_unanalyzed : forall k d now code,
  P k d -> P k (setCompleteTime now (setAnalyzeFalse (setStatusCode code d))).

Hypothesis P_unknown : forall k now code,
  P k (setCompleteTime now (setAnalyzeFalse (setStatusCode code emptyDetails))).

Hypothesis P_scored : forall k d now now' code doc scored,
  P k d ->
  JS.truthyB (analyze d) = true ->
  scorePage dateValue now (readDocument (setStatusCode code d) doc) = Returned scored ->
  P k (setCompleteTime now' scored).

Hypothesis P_rescored : forall k d now scored,
  P k d ->
  JS.truthyB (analyze d) = true ->
  scorePage dateValue now d = Returned scored ->
  P k scored.

Lemma entries_pvSet URL d pv :
  Forall (fun entry => P (fst entry) (snd entry)) pv ->
  P URL d ->
  Forall (fun entry => P (fst entry) (snd entry)) (pvSet URL d pv).
Proof.
  intros Hall Hd. induction pv as [|[k d0] rest IH]; simpl.
  - constructor; auto.
  - inversion Hall as [|? ? Hhead Htail]; subst.
    destruct (k =? URL)%string eqn:E; constructor; auto.
    apply String.eqb_eq in E. subst k. exact Hd.
Qed.

Lemma entries_pvGet URL d pv :
  Forall (fun entry => P (fst entry) (snd entry)) pv ->
  pvGet URL pv = Some d -> P URL d.
Proof.
  intros Hall. induction pv as [|[k d0] rest IH]; simpl; [discriminate|].
  inversion Hall as [|? ? Hhead Htail]; subst.
  destruct (k =? URL)%string eqn:E; auto.
  apply String.eqb_eq in E. subst k. intros H. injection H as <-. exact Hhead.
Qed.

Lemma entries_probe now URL referrer st :
  Forall (fun entry => P (fst entry) (snd entry)) (pagesVisited st) ->
  Forall (fun entry => P (fst entry) (snd entry))
    (pagesVisited (snd (queueURLToCrawl configuration now URL referrer false st))).
Proof.
  intros Hall. unfold queueURLToCrawl.
  destruct (pvGet (queueKey configuration URL) (pagesVisited st)); cbn [snd pagesVisited]; auto.
  apply entries_pvSet; auto.
Qed.

Lemma entries_queued now path referrer st :
  Forall (fun entry => P (fst entry) (snd entry)) (pagesVisited st) ->
  Forall (fun entry => P (fst entry) (snd entry))
    (pagesVisited
       (snd (queueURLToCrawl configuration now (makeURL configuration path) referrer true st))).
Proof.
  intros Hall. unfold queueURLToCrawl.
  destruct (pvGet (queueKey configuration (makeURL configuration path)) (pagesVisited st));
    cbn [snd pagesVisited]; auto.
  apply entries_pvSet; auto.
Qed.

Lemma entries_followLink now currentPath proposedURL st anchor :
  Forall (fun entry => P (fst entry) (snd entry)) (pagesVisited st) ->
  Forall (fun entry => P (fst entry) (snd entry))
    (pagesVisited
       (followLink URLParse dirname configuration now currentPath proposedURL st anchor)).
Proof.
  intros Hall. unfold followLink.
  pose proof (cleanURL_answer URLParse dirname configuration now anchor currentPath
                proposedURL st) as Hanswer.
  pose proof (cleanURL_effect URLParse dirname configuration now anchor currentPath
                proposedURL st) as Heffect.
  destruct (cleanURL URLParse dirname configuration now anchor currentPath proposedURL st)
    as [[link|] st']; cbn [fst snd] in *.
  - destruct (Hanswer link eq_refl) as [-> [path ->]]. now apply entries_queued.
  - destruct Heffect as [-> | [_ [URL [_ ->]]]]; auto using entries_probe.
Qed.

Lemma entries_followLinks now currentPath proposedURL links st :
  Forall (fun entry => P (fst entry) (snd entry)) (pagesVisited st) ->
  Forall (fun entry => P (fst entry) (snd entry))
    (pagesVisited
       (fold_left (followLink URLParse dirname configuration now currentPath proposedURL)
          links st)).
Proof.
  revert st. induction links as [|anchor links IH]; intros st Hall; simpl; auto.
  apply IH. now apply entries_followLink.
Qed.

Lemma entries_recordResponse now response st :
  Forall (fun entry => P (fst entry) (snd entry)) (pagesVisited st) ->
  Forall (fun entry => P (fst entry) (snd entry))
    (pagesVisited
       (fst (recordResponse dateValue URLParse dirname configuration now response st))).
Proof.
  intros Hall. unfold recordResponse.
  set (known := pvGet (href response) (pagesVisited st)).
  assert (Hknown : forall d, known = Some d -> P (href response) d)
    by (intros d Hd; exact (entries_pvGet _ _ _ Hall Hd)).
  set (pageDetails := setStatusCode (status response)
                        match known with Some d => d | None => emptyDetails end).
  assert (Hfalse : P (href response) (setCompleteTime now (setAnalyzeFalse pageDetails))).
  { subst pageDetails. destruct known as [d|]; auto. }
  destruct (match known with
            | Some d => match statusCode d with Some c => c <? 0 | None => false end
            | None => true
            end); cbn [fst]; auto.
  destruct ((status response <? 300) && JS.truthyB (analyze pageDetails))%bool eqn:Hgo.
  - destruct (dollar response) as [doc|].
    + set (followed := fold_left _ (anchors doc) st).
      assert (Hfollowed : Forall (fun entry => P (fst entry) (snd entry))
                            (pagesVisited followed))
        by (apply entries_followLinks; exact Hall).
      destruct (scorePage dateValue now (readDocument pageDetails doc)) as [scored|] eqn:Hs;
        cbn [fst pagesVisited]; auto.
      apply entries_pvSet; auto.
      apply andb_prop in Hgo. destruct Hgo as [_ Hgo]. subst pageDetails.
      destruct known as [d|]; [|discriminate Hgo].
      exact (P_scored _ d now now (status response) doc scored (Hknown d eq_refl) Hgo Hs).
    + cbn [fst pagesVisited]. apply entries_pvSet; auto.
  - cbn [fst pagesVisited]. apply entries_pvSet; auto.
Qed.

Lemma entries_adjustTermScores now pv :
  Forall (fun entry => P (fst entry) (snd entry)) pv ->
  Forall (fun entry => P (fst entry) (snd entry)) (fst (adjustTermScores dateValue now pv)).
Proof.
  induction pv as [|[URL d] rest IH]; intros Hall; cbn [adjustTermScores].
  - constructor.
  - inversion Hall as [|? ? Hhead Htail]; subst. cbn [fst snd] in Hhead.
    specialize (IH Htail).
    destruct (JS.isNumber (statusCode d) (-1)); auto.
    destruct (JS.truthyB (analyze d) && JS.isNumber (pageScore d) 0)%bool eqn:Hgo.
    + apply andb_prop in Hgo. destruct Hgo as [Ha _].
      destruct (scorePage dateValue now d) as [scored|] eqn:Hs; cbn [fst]; auto.
      destruct (adjustTermScores dateValue now rest) as [rest' outcome]. cbn [fst] in *.
      constructor; auto. cbn [fst snd]. eapply P_rescored; eauto.
    + destruct (adjustTermScores dateValue now rest) as [rest' outcome]. cbn [fst] in *.
      constructor; auto.
Qed.

Lemma entries_analyzePage now fetched queueSize st :
  Forall (fun entry => P (fst entry) (snd entry)) (pagesVisited st) ->
  Forall (fun entry => P (fst entry) (snd entry))
    (pagesVisited
       (fst (analyzePage dateValue URLParse dirname configuration now fetched queueSize st))).
Proof.
  intros Hall. unfold analyzePage.
  assert (Hstep : Forall (fun entry => P (fst entry) (snd entry))
            (pagesVisited
               (fst match fetched with
                    | Failed => (st, Returned tt)
                    | Responded response =>
                        recordResponse dateValue URLParse dirname configuration now response st
                    end))).
  { destruct fetched; cbn [fst]; auto using entries_recordResponse. }
  destruct (match fetched with
            | Failed => (st, Returned tt)
            | Responded response =>
                recordResponse dateValue URLParse dirname configuration now response st
            end) as [st' outcome].
  cbn [fst] in Hstep. destruct outcome; cbn [fst]; auto.
  destruct (Nat.eqb queueSize 0); cbn [fst]; auto.
  pose proof (entries_adjustTermScores now _ Hstep) as Hadj.
  destruct (adjustTermScores dateValue now (pagesVisited st')) as [pv outcome].
  exact Hadj.
Qed.

Lemma entries_reachable initial st :
  startConfiguration dirname initial = configuration ->
  reachable dateValue URLParse dirname initial st ->
  Forall (fun entry => P (fst entry) (snd entry)) (pagesVisited st).
Proof.
  intros Hstart. induction 1 as [now | st now fetched queueSize Hreach IH].
  - unfold startCrawler, startURL. rewrite Hstart. apply entries_queued. constructor.
  - rewrite Hstart. now apply entries_analyzePage.
Qed.

End RunInvariant.

Lemma scorePage_scored dateValue now pageDetails scored :
  JS.truthyB (analyze pageDetails) = true ->
  scorePage dateValue now pageDetails = Returned scored ->
  terms scored = None /\
  wordFrequencyList scored <> None /\
  pageAnalysis scored <> None /\
  analyze scored = analyze pageDetails.
Proof.
  unfold scorePage. intros Ha. rewrite Ha.
  destruct (terms pageDetails); [|discriminate].
  intros H. injection H as <-. cbn. repeat split; discriminate.
Qed.

Lemma reachable_terms_cleared dateValue URLParse dirname initial st :
  reachable dateValue URLParse dirname initial st ->
  Forall (fun entry =>
            terms (snd entry) = None /\
            (JS.truthyB (analyze (snd entry)) = true ->
             JS.isNumber (statusCode (snd entry)) (-1) = false ->
             wordFrequencyList (snd entry) <> None /\ pageAnalysis (snd entry) <> None))
    (pagesVisited st).
Proof.
  apply (entries_reachable dateValue URLParse dirname
           (startConfiguration dirname initial)
           (fun _ d =>
              terms d = None /\
              (JS.truthyB (analyze d) = true ->
               JS.isNumber (statusCode d) (-1) = false ->
               wordFrequencyList d <> None /\ pageAnalysis d <> None))).
  - intros k now referrer. split; [reflexivity | discriminate].
  - intros path now referrer. split; [reflexivity | discriminate].
  - intros k d now code [Ht _]. split; [exact Ht | discriminate].
  - intros k now code. split; [reflexivity | discriminate].
  - intros k d now now' code doc scored _ Ha Hs.
    destruct (scorePage_scored dateValue now (readDocument (setStatusCode code d) doc)
                scored Ha Hs) as (Ht & Hw & Hp & _).
    split; [exact Ht | intros _ _; split; assumption].
  - intros k d now scored _ Ha Hs.
    destruct (scorePage_scored _ _ _ _ Ha Hs) as (Ht & Hw & Hp & _).
    split; [exact Ht | intros _ _; split; assumption].
  - reflexivity.
Qed.

(** X14 -- in every state of a run no stored record holds a term matrix:
    [scorePage] has removed [terms] before a record is written back.  And a
    record that is still marked for analysis and has been answered carries
    its sorted word list and its analysis text. *)
Theorem reachable_scored_records
    (dateValue : string -> option Z) (URLParse : string -> URL.Parts)
    (dirname : string -> string) (initial : Configuration) (st : Crawl)
    (URL : string) (d : PageDetails) :
  reachable dateValue URLParse dirname initial st ->
  pvGet URL (pagesVisited st) = Some d ->
  terms d = None /\
  (JS.truthyB (analyze d) = true ->
   JS.isNumber (statusCode d) (-1) = false ->
   wordFrequencyList d <> None /\ pageAnalysis d <> None).
Proof.
  intros Hreach Hget.
  pose proof (reachable_terms_cleared _ _ _ _ _ Hreach) as Hall.
  clear Hreach. induction (pagesVisited st) as [|[k d0] rest IH]; [discriminate|].
  inversion Hall as [|? ? Hhead Htail]; subst. simpl in Hget.
  destruct (k =? URL)%string; auto.
  injection Hget as <-. exact Hhead.
Qed.

(** The start page of the crawl restricted to [/docs], once answered. *)
Lemma reachable_scored_records_witness :
  exists d,
    pvGet "https://host/docs/index.html" (pagesVisited docsCrawl) = Some d /\
    terms d = None /\
    wordFrequencyList d <> None.
Proof.
  eexists. split; [reflexivity|].
  assert (Hreach : reachable sampleDates UrlParse.parse Path.dirname docsConfiguration
                     docsCrawl).
  { exact (reach_callback sampleDates UrlParse.parse Path.dirname docsConfiguration
             (startCrawler Path.dirname 0 docsConfiguration) 5 (Responded docsHome) 1
             (reach_start sampleDates UrlParse.parse Path.dirname docsConfiguration 0)). }
  destruct (reachable_scored_records sampleDates UrlParse.parse Path.dirname
              docsConfiguration docsCrawl "https://host/docs/index.html" _ Hreach eq_refl)
    as (Ht & Hscored).
  split; [exact Ht | apply Hscored; reflexivity].
Defined.




(** ** The completion pass and the report *)

Lemma scorePage_throws dateValue now pageDetails :
  scorePage dateValue now pageDetails = TypeError <->
  JS.truthyB (analyze pageDetails) = true /\ terms pageDetails = None.
Proof.
  unfold scorePage.
  destruct (JS.truthyB (analyze pageDetails)); destruct (terms pageDetails);
    split; intros H; try discriminate H; try (destruct H; discriminate); auto.
Qed.

Lemma adjustTermScores_throws dateValue now pv :
  snd (adjustTermScores dateValue now pv) = TypeError <->
  Exists (fun entry =>
            JS.isNumber (statusCode (snd entry)) (-1) = false /\
            JS.truthyB (analyze (snd entry)) = true /\
            JS.isNumber (pageScore (snd entry)) 0 = true /\
            terms (snd entry) = None) pv.
Proof.
  induction pv as [|[URL d] rest IH]; cbn [adjustTermScores].
  - split; [discriminate | intros H; inversion H].
  - rewrite Exists_cons. cbn [snd].
    destruct (JS.isNumber (statusCode d) (-1)) eqn:Hcode.
    { rewrite IH. split; [auto | intros [(H & _) | H]; [discriminate | exact H]]. }
    destruct (JS.truthyB (analyze d)) eqn:Ha; cbn [andb].
    + destruct (JS.isNumber (pageScore d) 0) eqn:Hscore.
      * destruct (scorePage dateValue now d) as [scored|] eqn:Hs.
        -- assert (Hterms : terms d <> None).
           { intros Ht. assert (Hthrow : scorePage dateValue now d = TypeError)
               by (apply scorePage_throws; auto).
             congruence. }
           destruct (adjustTermScores dateValue now rest) as [rest' outcome].
           cbn [snd] in *. rewrite IH.
           split; [auto | intros [(_ & _ & _ & H) | H]; [contradiction | exact H]].
        -- apply scorePage_throws in Hs. destruct Hs as [_ Ht]. cbn [snd].
           split; [auto | reflexivity].
      * destruct (adjustTermScores dateValue now rest) as [rest' outcome].
        cbn [snd] in *. rewrite IH.
        split; [auto | intros [(_ & _ & H & _) | H]; [discriminate | exact H]].
    + destruct (adjustTermScores dateValue now rest) as [rest' outcome].
      cbn [snd] in *. rewrite IH.
      split; [auto | intros [(_ & H & _) | H]; [discriminate | exact H]].
Qed.

(** X16 -- [adjustTermScores] ends in a [TypeError] exactly when the map
    holds a record whose [statusCode] is not -1, whose [analyze] flag is set,
    whose [pageScore] is 0 and which has no [terms]; in every other case it
    returns. *)
Theorem adjustTermScores_throws_iff
    (dateValue : string -> option Z) (now : Z) (pv : PagesVisited) :
  snd (adjustTermScores dateValue now pv) = TypeError <->
  exists URL d,
    In (URL, d) pv /\
    JS.isNumber (statusCode d) (-1) = false /\
    JS.truthyB (analyze d) = true /\
    JS.isNumber (pageScore d) 0 = true /\
    terms d = None.
Proof.
  rewrite adjustTermScores_throws, Exists_exists. split.
  - intros [[URL d] [Hin H]]. exists URL, d. auto.
  - intros [URL [d [Hin H]]]. exists (URL, d). auto.
Qed.

(** The map of the crawl restricted to [/docs] holds its start page,
    answered, marked for analysis and scored 0. *)
Lemma adjustTermScores_throws_iff_witness :
  snd (adjustTermScores sampleDates 6 (pagesVisited docsCrawl)) = TypeError.
Proof.
  apply (proj2 (adjustTermScores_throws_iff sampleDates 6 (pagesVisited docsCrawl))).
  eexists. eexists. split; [left; reflexivity|]. repeat split.
Defined.

(** X17 -- in a run, the completion pass fails exactly when some answered
    record marked for analysis has the score 0: such a record has always been
    scored before and has lost its [terms]. *)
Theorem reachable_completion_throws_iff
    (dateValue : string -> option Z) (URLParse : string -> URL.Parts)
    (dirname : string -> string) (initial : Configuration) (st : Crawl) (now : Z) :
  reachable dateValue URLParse dirname initial st ->
  (snd (adjustTermScores dateValue now (pagesVisited st)) = TypeError <->
   exists URL d,
     In (URL, d) (pagesVisited st) /\
     JS.isNumber (statusCode d) (-1) = false /\
     JS.truthyB (analyze d) = true /\
     JS.isNumber (pageScore d) 0 = true).
Proof.
  intros Hreach.
  pose proof (reachable_terms_cleared _ _ _ _ _ Hreach) as Hall.
  rewrite adjustTermScores_throws, Exists_exists. rewrite Forall_forall in Hall. split.
  - intros [[URL d] [Hin (H1 & H2 & H3 & _)]]. exists URL, d. auto.
  - intros [URL [d (Hin & H1 & H2 & H3)]]. exists (URL, d).
    split; [exact Hin|]. cbn [snd]. repeat split; auto.
    exact (proj1 (Hall _ Hin)).
Qed.

(** The crawl restricted to [/docs]: its start page was scored 0. *)
Lemma reachable_completion_throws_iff_witness :
  snd (adjustTermScores sampleDates 7 (pagesVisited docsCrawl)) = TypeError.
Proof.
  assert (Hreach : reachable sampleDates UrlParse.parse Path.dirname docsConfiguration
                     docsCrawl).
  { exact (reach_callback sampleDates UrlParse.parse Path.dirname docsConfiguration
             (startCrawler Path.dirname 0 docsConfiguration) 5 (Responded docsHome) 1
             (reach_start sampleDates UrlParse.parse Path.dirname docsConfiguration 0)). }
  apply (proj2 (reachable_completion_throws_iff sampleDates UrlParse.parse Path.dirname
                  docsConfiguration docsCrawl 7 Hreach)).
  eexists. eexists. split; [left; reflexivity|]. repeat split.
Defined.

(** X18 -- when [adjustTermScores] returns, the map it leaves holds no
    record whose [statusCode] is -1, and its keys are the keys of all other
    records, in their old order. *)
Theorem completion_removes_unanswered
    (dateValue : string -> option Z) (now : Z) (pv : PagesVisited) :
  snd (adjustTermScores dateValue now pv) = Returned tt ->
  Forall (fun entry => JS.isNumber (statusCode (snd entry)) (-1) = false)
    (fst (adjustTermScores dateValue now pv)) /\
  pvKeys (fst (adjustTermScores dateValue now pv)) =
  pvKeys (filter (fun entry => negb (JS.isNumber (statusCode (snd entry)) (-1))) pv).
Proof. apply adjustTermScores_returned. Qed.

(** The crawl restricted to [/docs] with its start page scored -3, its
    first link unanswered and its second link answered with 404: the pass
    returns, removes the first link and keeps the other two records in their
    order. *)
Lemma completion_removes_unanswered_witness :
  pvKeys (pagesVisited docsScored)
  = ["https://host/docs/index.html"; "https://host/docs/page2.html";
     "https://other.com/x"] /\
  Forall (fun entry => JS.isNumber (statusCode (snd entry)) (-1) = false)
    (fst (adjustTermScores sampleDates 7 (pagesVisited docsScored))) /\
  pvKeys (fst (adjustTermScores sampleDates 7 (pagesVisited docsScored)))
  = ["https://host/docs/index.html"; "https://other.com/x"].
Proof.
  split; [reflexivity|].
  apply (completion_removes_unanswered sampleDates 7 (pagesVisited docsScored)).
  reflexivity.
Defined.

(** X19 -- a CSV file written after a completion pass that returned has
    one row for every record whose [statusCode] is not -1, in the order of
    the map and under its URL, and no row with the status -1. *)
Theorem saveResultsToCSVFile_after_completion
    (dateValue : string -> option Z) (configuration : Configuration) (now : Z)
    (pv : PagesVisited) :
  snd (adjustTermScores dateValue now pv) = Returned tt ->
  saveToCSV configuration <> ""%string ->
  exists rows,
    saveResultsToCSVFile configuration (fst (adjustTermScores dateValue now pv)) = Some rows /\
    map Csv.url rows =
    pvKeys (filter (fun entry => negb (JS.isNumber (statusCode (snd entry)) (-1))) pv) /\
    Forall (fun row => JS.isNumber (Csv.status row) (-1) = false) rows.
Proof.
  intros Hout Hfile. destruct (adjustTermScores_returned dateValue now pv Hout) as [Hall Hkeys].
  unfold saveResultsToCSVFile.
  destruct (saveToCSV configuration) as [|c r]; [contradiction|]. cbn [String.length Nat.ltb Nat.leb].
  eexists. split; [reflexivity|]. split.
  - rewrite <- Hkeys. unfold pvKeys. rewrite map_map. apply map_ext.
    intros [URL d]. unfold csvRow. cbn [fst snd]. now destruct (JS.truthyB (analyze d)).
  - unfold allRecords in Hall. rewrite Forall_forall in *. intros row Hrow.
    apply in_map_iff in Hrow. destruct Hrow as [[URL d] [<- Hin]].
    specialize (Hall _ Hin). cbn [fst snd] in *. unfold csvRow.
    now destruct (JS.truthyB (analyze d)).
Qed.

(** The same crawl with a CSV file configured: the file gets the rows of
    the start page and of the link answered with 404, in that order. *)
Lemma saveResultsToCSVFile_after_completion_witness :
  exists rows,
    saveResultsToCSVFile
      {| protocol := "https:"; host := "host"; startPage := "/docs/index.html";
         subPathOnly := true; saveToCSV := "report.csv"; showReport := true;
         debug := false; basePath := "/docs" |}
      (fst (adjustTermScores sampleDates 7 (pagesVisited docsScored))) = Some rows /\
    map Csv.url rows = ["https://host/docs/index.html"; "https://other.com/x"] /\
    Forall (fun row => JS.isNumber (Csv.status row) (-1) = false) rows.
Proof.
  apply (saveResultsToCSVFile_after_completion sampleDates
           {| protocol := "https:"; host := "host"; startPage := "/docs/index.html";
              subPathOnly := true; saveToCSV := "report.csv"; showReport := true;
              debug := false; basePath := "/docs" |}
           7 (pagesVisited docsScored)).
  - reflexivity.
  - discriminate.
Defined.

(** ** Handling a response *)

Lemma recordResponse_outcome dateValue URLParse dirname configuration now response st :
  snd (recordResponse dateValue URLParse dirname configuration now response st) = Returned tt.
Proof.
  unfold recordResponse.
  destruct (match pvGet (href response) (pagesVisited st) with
            | Some d => match statusCode d with Some c => c <? 0 | None => false end
            | None => true
            end); [|reflexivity].
  destruct (_ && _)%bool eqn:Hgo; [|reflexivity].
  destruct (dollar response) as [doc|]; [|reflexivity].
  destruct (scorePage dateValue now _) as [scored|] eqn:Hs; [reflexivity|].
  apply scorePage_throws in Hs. destruct Hs as [_ Hs]. discriminate Hs.
Qed.

(** X20 -- handling a response never throws: the one call of [scorePage]
    in it is made right after [terms] has been set.  So [analyzePage] returns
    whenever the crawler still reports a non-empty queue. *)
Theorem analyzePage_returns_while_queued
    (dateValue : string -> option Z) (URLParse : string -> URL.Parts)
    (dirname : string -> string) (configuration : Configuration) (now : Z)
    (response : Response) (fetched : Fetched) (pending : nat) (st : Crawl) :
  snd (recordResponse dateValue URLParse dirname configuration now response st)
  = Returned tt /\
  snd (analyzePage dateValue URLParse dirname configuration now fetched (S pending) st)
  = Returned tt.
Proof.
  split; [apply recordResponse_outcome|].
  unfold analyzePage. destruct fetched as [|r]; [reflexivity|].
  pose proof (recordResponse_outcome dateValue URLParse dirname configuration now r st) as H.
  destruct (recordResponse dateValue URLParse dirname configuration now r st) as [st' outcome].
  cbn [snd] in H. subst outcome. reflexivity.
Qed.

Lemma recordResponse_stored dateValue URLParse dirname configuration now response st :
  (0 <=? status response) = true ->
  exists d,
    pvGet (href response)
      (pagesVisited
         (fst (recordResponse dateValue URLParse dirname configuration now response st)))
    = Some d /\
    match statusCode d with Some c => c <? 0 | None => false end = false.
Proof.
  intros Hstatus. apply Z.leb_le in Hstatus.
  assert (Hneg : (status response <? 0) = false) by (apply Z.ltb_ge; lia).
  unfold recordResponse.
  destruct (pvGet (href response) (pagesVisited st)) as [d0|] eqn:Hknown.
  - destruct (match statusCode d0 with Some c => c <? 0 | None => false end) eqn:Hold.
    + destruct (_ && _)%bool.
      * destruct (dollar response) as [doc|].
        -- destruct (scorePage dateValue now _) as [scored|] eqn:Hs.
           ++ cbn [fst pagesVisited]. rewrite pvGet_pvSet_same. eexists. split; [reflexivity|].
              apply scorePage_statusCode in Hs. cbn [setCompleteTime statusCode].
              rewrite Hs. exact Hneg.
           ++ apply scorePage_throws in Hs. destruct Hs as [_ Hs]. discriminate Hs.
        -- cbn [fst pagesVisited]. rewrite pvGet_pvSet_same. eexists. split; [reflexivity|].
           exact Hneg.
      * cbn [fst pagesVisited]. rewrite pvGet_pvSet_same. eexists. split; [reflexivity|].
        exact Hneg.
    + cbn [fst]. exists d0. auto.
  - destruct (_ && _)%bool.
    + destruct (dollar response) as [doc|].
      * destruct (scorePage dateValue now _) as [scored|] eqn:Hs.
        -- cbn [fst pagesVisited]. rewrite pvGet_pvSet_same. eexists. split; [reflexivity|].
           apply scorePage_statusCode in Hs. cbn [setCompleteTime statusCode].
           rewrite Hs. exact Hneg.
        -- apply scorePage_throws in Hs. destruct Hs as [_ Hs]. discriminate Hs.
      * cbn [fst pagesVisited]. rewrite pvGet_pvSet_same. eexists. split; [reflexivity|].
        exact Hneg.
    + cbn [fst pagesVisited]. rewrite pvGet_pvSet_same. eexists. split; [reflexivity|].
      exact Hneg.
Qed.

(** X21 -- a URL is handled once: after a response with a status that is
    not negative, any later response for the same URL is discarded and
    leaves the record map and the queue as they are. *)
Theorem recordResponse_once
    (dateValue : string -> option Z) (URLParse : string -> URL.Parts)
    (dirname : string -> string) (configuration : Configuration) (now later : Z)
    (first second : Response) (st : Crawl) :
  0 <= status first ->
  href second = href first ->
  let handled := fst (recordResponse dateValue URLParse dirname configuration now first st) in
  recordResponse dateValue URLParse dirname configuration later second handled
  = (handled, Returned tt).
Proof.
  intros Hstatus Hhref handled.
  destruct (recordResponse_stored dateValue URLParse dirname configuration now first st)
    as [d [Hget Hanswered]]; [now apply Z.leb_le|].
  fold handled in Hget. unfold recordResponse at 1. rewrite Hhref, Hget, Hanswered.
  reflexivity.
Qed.

(** The start page of the crawl restricted to [/docs], answered twice. *)
Lemma recordResponse_once_witness :
  recordResponse sampleDates UrlParse.parse Path.dirname docsConfiguration 8 docsHome
    (fst (recordResponse sampleDates UrlParse.parse Path.dirname docsConfiguration 5
            docsHome (startCrawler Path.dirname 0 docsConfiguration)))
  = (fst (recordResponse sampleDates UrlParse.parse Path.dirname docsConfiguration 5
            docsHome (startCrawler Path.dirname 0 docsConfiguration)),
     Returned tt).
Proof.
  apply (recordResponse_once sampleDates UrlParse.parse Path.dirname docsConfiguration 5 8
           docsHome docsHome (startCrawler Path.dirname 0 docsConfiguration)).
  - simpl. lia.
  - reflexivity.
Defined.

(** ** What link discovery keeps *)

Section CrawlInvariant.

Variable dateValue : string -> option Z.
Variable URLParse : string -> URL.Parts.
Variable dirname : string -> string.
Variable configuration : Configuration.

(** A property of the state that every call of [queueURLToCrawl] keeps. *)
Variable J : Crawl -> Prop.

Hypothesis J_queue : forall now URL referrer analyze st,
  J st -> J (snd (queueURLToCrawl configuration now URL referrer analyze st)).

Lemma kept_followLink now currentPath proposedURL st anchor :
  J st -> J (followLink URLParse dirname configuration now currentPath proposedURL st anchor).
Proof.
  intros HJ. unfold followLink.
  pose proof (cleanURL_effect URLParse dirname configuration now anchor currentPath
                proposedURL st) as Heffect.
  destruct (cleanURL URLParse dirname configuration now anchor currentPath proposedURL st)
    as [[link|] st']; cbn [fst snd] in *.
  - destruct Heffect as [-> | [Hnone _]]; [auto | discriminate Hnone].
  - destruct Heffect as [-> | [_ [URL [_ ->]]]]; auto.
Qed.

Lemma kept_followLinks now currentPath proposedURL links st :
  J st ->
  J (fold_left (followLink URLParse dirname configuration now currentPath proposedURL)
       links st).
Proof.
  revert st. induction links as [|anchor links IH]; intros st HJ; simpl; auto.
  apply IH. now apply kept_followLink.
Qed.

Lemma kept_recordResponse now response st :
  (forall st' d,
     J st' ->
     J {| pagesVisited := pvSet (href response) d (pagesVisited st');
          queued := queued st' |}) ->
  J st ->
  J (fst (recordResponse dateValue URLParse dirname configuration now response st)).
Proof.
  intros Hstore HJ. unfold recordResponse.
  destruct (match pvGet (href response) (pagesVisited st) with
            | Some d => match statusCode d with Some c => c <? 0 | None => false end
            | None => true
            end); [|exact HJ].
  destruct (_ && _)%bool; [|now apply Hstore].
  destruct (dollar response) as [doc|]; [|now apply Hstore].
  destruct (scorePage dateValue now _) as [scored|]; cbn [fst].
  - apply Hstore. now apply kept_followLinks.
  - now apply kept_followLinks.
Qed.

End CrawlInvariant.

(** X22 -- handling a response touches no record but its own: what is
    stored under any other URL before the call is stored there after it,
    whatever links the page carries. *)
Theorem recordResponse_other_records
    (dateValue : string -> option Z) (URLParse : string -> URL.Parts)
    (dirname : string -> string) (configuration : Configuration) (now : Z)
    (response : Response) (st : Crawl) (URL : string) (d : PageDetails) :
  URL <> href response ->
  pvGet URL (pagesVisited st) = Some d ->
  pvGet URL
    (pagesVisited
       (fst (recordResponse dateValue URLParse dirname configuration now response st)))
  = Some d.
Proof.
  intros Hother Hget.
  apply (kept_recordResponse dateValue URLParse dirname configuration
           (fun s => pvGet URL (pagesVisited s) = Some d)); auto.
  - intros. now apply queueURLToCrawl_frame.
  - intros st' d' H. cbn [pagesVisited]. rewrite pvGet_pvSet_other; auto.
Qed.

(** The record of the start page is untouched when another URL is
    answered with 404. *)
Lemma recordResponse_other_records_witness :
  pvGet "https://host/docs/index.html"
    (pagesVisited
       (fst (recordResponse sampleDates UrlParse.parse Path.dirname docsConfiguration 9
               {| href := "https://host/docs/page2.html"; status := 404; dollar := None |}
               (startCrawler Path.dirname 0 docsConfiguration))))
  = Some (newPageDetails 0 "https://host/docs/index.html" true).
Proof.
  apply (recordResponse_other_records sampleDates UrlParse.parse Path.dirname
           docsConfiguration 9
           {| href := "https://host/docs/page2.html"; status := 404; dollar := None |}
           (startCrawler Path.dirname 0 docsConfiguration)).
  - discriminate.
  - reflexivity.
Defined.

Lemma pvGet_pvSet_defined URL d pv k :
  pvGet k pv <> None -> pvGet k (pvSet URL d pv) <> None.
Proof.
  intros Hk. destruct (string_dec URL k) as [->|Hne].
  - rewrite pvGet_pvSet_same. discriminate.
  - now rewrite pvGet_pvSet_other.
Qed.

Lemma queueURLToCrawl_once configuration now URL referrer analyze st :
  NoDup (queued st) /\ (forall u, In u (queued st) -> pvGet u (pagesVisited st) <> None) ->
  NoDup (queued (snd (queueURLToCrawl configuration now URL referrer analyze st))) /\
  (forall u,
     In u (queued (snd (queueURLToCrawl configuration now URL referrer analyze st))) ->
     pvGet u (pagesVisited (snd (queueURLToCrawl configuration now URL referrer analyze st)))
     <> None).
Proof.
  intros [Hnodup Hrec]. unfold queueURLToCrawl.
  destruct (pvGet (queueKey configuration URL) (pagesVisited st)) eqn:Hkey;
    cbn [snd pagesVisited queued]; [auto|].
  split.
  - apply NoDup_app; [exact Hnodup | repeat constructor; auto |].
    intros u Hu [<-|[]]. exact (Hrec _ Hu Hkey).
  - intros u Hu. apply in_app_or in Hu. destruct Hu as [Hu | [<-|[]]].
    + now apply pvGet_pvSet_defined, Hrec.
    + rewrite pvGet_pvSet_same. discriminate.
Qed.

(** X23 -- no URL is handed to the crawler twice while a page is handled:
    if the queued URLs are distinct and each has a record, the same holds
    after [analyzePage] has handled a fetch and followed the links of the
    page, as long as the crawler reports a non-empty queue. *)
Theorem analyzePage_queues_once
    (dateValue : string -> option Z) (URLParse : string -> URL.Parts)
    (dirname : string -> string) (configuration : Configuration) (now : Z)
    (fetched : Fetched) (pending : nat) (st : Crawl) :
  NoDup (queued st) ->
  (forall u, In u (queued st) -> pvGet u (pagesVisited st) <> None) ->
  let st' := fst (analyzePage dateValue URLParse dirname configuration now fetched
                    (S pending) st) in
  NoDup (queued st') /\
  (forall u, In u (queued st') -> pvGet u (pagesVisited st') <> None).
Proof.
  intros Hnodup Hrec st'. subst st'. unfold analyzePage.
  destruct fetched as [|response]; [cbn [fst]; auto|].
  pose proof (recordResponse_outcome dateValue URLParse dirname configuration now response st)
    as Hout.
  pose proof (kept_recordResponse dateValue URLParse dirname configuration
                (fun s => NoDup (queued s) /\
                          (forall u, In u (queued s) -> pvGet u (pagesVisited s) <> None))
                (fun now URL referrer analyze s =>
                   queueURLToCrawl_once configuration now URL referrer analyze s)
                now response st) as Hkept.
  destruct (recordResponse dateValue URLParse dirname configuration now response st)
    as [handled outcome].
  cbn [snd fst] in *. subst outcome. cbn [fst Nat.eqb]. apply Hkept; [|auto].
  intros s d [Hn Hr]. cbn [queued pagesVisited]. split; [exact Hn|].
  intros u Hu. now apply pvGet_pvSet_defined, Hr.
Qed.

(** The start of the crawl restricted to [/docs], answered with a page
    that links to [/docs/page2.html]. *)
Lemma analyzePage_queues_once_witness :
  NoDup (queued docsCrawl) /\
  (forall u, In u (queued docsCrawl) -> pvGet u (pagesVisited docsCrawl) <> None).
Proof.
  apply (analyzePage_queues_once sampleDates UrlParse.parse Path.dirname docsConfiguration 5
           (Responded docsHome) 0 (startCrawler Path.dirname 0 docsConfiguration)).
  - repeat constructor; simpl; tauto.
  - simpl. intros u [<-|[]]. discriminate.
Defined.







(** ** Bounds on the score *)

Lemma kept_refl l :
  Forall2 (fun a b => term b = term a /\ frequency a <= frequency b) l l.
Proof. induction l; constructor; auto. split; [reflexivity | lia]. Qed.

Lemma kept_trans l1 l2 l3 :
  Forall2 (fun a b => term b = term a /\ frequency a <= frequency b) l1 l2 ->
  Forall2 (fun a b => term b = term a /\ frequency a <= frequency b) l2 l3 ->
  Forall2 (fun a b => term b = term a /\ frequency a <= frequency b) l1 l3.
Proof.
  intros H12. revert l3. induction H12 as [|a b l1 l2 [Ht Hf] _ IH]; intros l3 H23.
  - inversion H23. constructor.
  - inversion H23 as [|? c ? l3' [Ht' Hf'] Hrest]; subst. constructor; auto.
    split; [congruence | lia].
Qed.

Lemma boostTerms_grows amount word l pageScore boostedWordCount :
  0 <= amount ->
  pageScore <= snd (fst (boostTerms amount word l pageScore boostedWordCount)) /\
  Forall2 (fun a b => term b = term a /\ frequency a <= frequency b) l
    (fst (fst (boostTerms amount word l pageScore boostedWordCount))).
Proof.
  intros Hamount. revert pageScore boostedWordCount.
  induction l as [|x l IH]; intros pageScore boostedWordCount; cbn [boostTerms].
  - cbn [fst snd]. split; [lia | constructor].
  - destruct (word =? term x)%string.
    + destruct (frequency x >? 1).
      * specialize (IH (pageScore + amount) (boostedWordCount + 1)).
        destruct (boostTerms amount word l (pageScore + amount) (boostedWordCount + 1))
          as [[rest' ps] bc].
        cbn [fst snd] in *. destruct IH as [IH1 IH2]. split; [lia|].
        constructor; auto. cbn. split; [reflexivity | lia].
      * specialize (IH pageScore boostedWordCount).
        destruct (boostTerms amount word l pageScore boostedWordCount) as [[rest' ps] bc].
        cbn [fst snd] in *. destruct IH as [IH1 IH2]. split; [lia|].
        constructor; auto. cbn. split; [reflexivity | lia].
    + specialize (IH pageScore boostedWordCount).
      destruct (boostTerms amount word l pageScore boostedWordCount) as [[rest' ps] bc].
      cbn [fst snd] in *. destruct IH as [IH1 IH2]. split; [lia|].
      constructor; auto. split; [reflexivity | lia].
Qed.

Lemma boostWords_grows amount compared headerOneWords words b :
  0 <= amount ->
  bScore b <= bScore (boostWords amount compared headerOneWords words b) /\
  bHeader b <= bHeader (boostWords amount compared headerOneWords words b) /\
  Forall2 (fun a b => term b = term a /\ frequency a <= frequency b) (bWords b)
    (bWords (boostWords amount compared headerOneWords words b)).
Proof.
  intros Hamount. unfold boostWords. revert b.
  induction words as [|w words IH]; intros b; cbn [fold_left].
  - repeat split; try lia. apply kept_refl.
  - specialize (IH (boostWord amount compared headerOneWords b w)).
    destruct IH as (IH1 & IH2 & IH3).
    assert (Hstep : bScore b <= bScore (boostWord amount compared headerOneWords b w) /\
                    bHeader b <= bHeader (boostWord amount compared headerOneWords b w) /\
                    Forall2 (fun a b => term b = term a /\ frequency a <= frequency b)
                      (bWords b) (bWords (boostWord amount compared headerOneWords b w))).
    { unfold boostWord.
      pose proof (boostTerms_grows amount (compared (JS.toLowerCase w)) (bWords b)
                    (bScore b) (bCount b) Hamount) as [H1 H2].
      destruct (boostTerms amount (compared (JS.toLowerCase w)) (bWords b)
                  (bScore b) (bCount b)) as [[wfl ps] bc].
      cbn [fst snd bScore bHeader bWords] in *. repeat split; auto.
      destruct headerOneWords as [hs|]; [|lia].
      destruct (JS.includes hs (JS.toLowerCase w)); lia. }
    destruct Hstep as (H1 & H2 & H3). repeat split; try lia.
    eapply kept_trans; eauto.
Qed.

Lemma boostRules_grow pageDetails headerOneWords s :
  let s' := keywordRule pageDetails headerOneWords
              (descriptionRule pageDetails headerOneWords
                 (titleRule pageDetails headerOneWords s)) in
  score s <= score s' /\
  headerWordsInTitle s <= headerWordsInTitle s' /\
  headerWordsInDescription s <= headerWordsInDescription s' /\
  headerWordsInKeywords s <= headerWordsInKeywords s' /\
  Forall2 (fun a b => term b = term a /\ frequency a <= frequency b)
    (wordList s) (wordList s').
Proof.
  cbv zeta.
  assert (Hrule : forall amount compared words s0,
            0 <= amount ->
            score s0 <= bScore (boostWords amount compared headerOneWords words (startBoost s0)) /\
            0 <= bHeader (boostWords amount compared headerOneWords words (startBoost s0)) /\
            Forall2 (fun a b => term b = term a /\ frequency a <= frequency b) (wordList s0)
              (bWords (boostWords amount compared headerOneWords words (startBoost s0)))).
  { intros amount compared words s0 Hamount.
    exact (boostWords_grows amount compared headerOneWords words (startBoost s0) Hamount). }
  assert (Htitle : let s1 := titleRule pageDetails headerOneWords s in
            score s <= score s1 /\
            headerWordsInTitle s <= headerWordsInTitle s1 /\
            headerWordsInDescription s <= headerWordsInDescription s1 /\
            headerWordsInKeywords s <= headerWordsInKeywords s1 /\
            Forall2 (fun a b => term b = term a /\ frequency a <= frequency b)
              (wordList s) (wordList s1)).
  { cbv zeta. unfold titleRule. destruct (JS.truthy (title pageDetails)).
    - destruct (Hrule 2 (fun word => word) (JS.split_space (text (title pageDetails))) s)
        as (H1 & H2 & H3); [lia|].
      cbn [score wordList headerWordsInTitle headerWordsInDescription headerWordsInKeywords].
      repeat split; auto; lia.
    - cbn. repeat split; try lia. apply kept_refl. }
  set (s1 := titleRule pageDetails headerOneWords s) in *. cbv zeta in Htitle.
  assert (Hdescription : let s2 := descriptionRule pageDetails headerOneWords s1 in
            score s1 <= score s2 /\
            headerWordsInTitle s1 <= headerWordsInTitle s2 /\
            headerWordsInDescription s1 <= headerWordsInDescription s2 /\
            headerWordsInKeywords s1 <= headerWordsInKeywords s2 /\
            Forall2 (fun a b => term b = term a /\ frequency a <= frequency b)
              (wordList s1) (wordList s2)).
  { cbv zeta. unfold descriptionRule. destruct (JS.truthy (description pageDetails)).
    - destruct (Hrule 2 (fun word => word)
                  (JS.split_space (text (description pageDetails))) s1)
        as (H1 & H2 & H3); [lia|].
      cbn [score wordList headerWordsInTitle headerWordsInDescription headerWordsInKeywords].
      repeat split; auto; lia.
    - cbn. repeat split; try lia. apply kept_refl. }
  set (s2 := descriptionRule pageDetails headerOneWords s1) in *. cbv zeta in Hdescription.
  assert (Hkeywords : let s3 := keywordRule pageDetails headerOneWords s2 in
            score s2 <= score s3 /\
            headerWordsInTitle s2 <= headerWordsInTitle s3 /\
            headerWordsInDescription s2 <= headerWordsInDescription s3 /\
            headerWordsInKeywords s2 <= headerWordsInKeywords s3 /\
            Forall2 (fun a b => term b = term a /\ frequency a <= frequency b)
              (wordList s2) (wordList s3)).
  { cbv zeta. unfold keywordRule. destruct (JS.truthy (keywords pageDetails)).
    - destruct (Hrule 1 JS.trim (keywordWords (text (keywords pageDetails))) s2)
        as (H1 & H2 & H3); [lia|].
      cbn [score wordList headerWordsInTitle headerWordsInDescription headerWordsInKeywords].
      repeat split; auto; lia.
    - cbn. repeat split; try lia. apply kept_refl. }
  cbv zeta in Hkeywords.
  destruct Htitle as (A1 & A2 & A3 & A4 & A5).
  destruct Hdescription as (B1 & B2 & B3 & B4 & B5).
  destruct Hkeywords as (C1 & C2 & C3 & C4 & C5).
  repeat split; try lia.
  eapply kept_trans; [exact A5|]. eapply kept_trans; [exact B5 | exact C5].
Qed.

Lemma lateRules_effect dateValue now pageDetails s :
  let s' := headerRule pageDetails
              (productRule pageDetails (freshnessRule dateValue now pageDetails s)) in
  wordList s' = wordList s /\
  (0 <= headerWordsInTitle s ->
   0 <= headerWordsInDescription s ->
   0 <= headerWordsInKeywords s ->
   score s - 4 <= score s').
Proof.
  cbv zeta. unfold headerRule, productRule, freshnessRule.
  destruct (JS.truthy (lastModified pageDetails));
    [destruct (match dateValue (text (lastModified pageDetails)) with
               | Some lastModified => now - lastModified >? oneYear
               | None => false
               end)|];
    (destruct (JS.truthy (product pageDetails));
     [destruct (negb (JS.truthy (version pageDetails)))|]);
    destruct (JS.truthy (headerOne pageDetails));
    cbn [judge wordList score headerWordsInTitle headerWordsInDescription
           headerWordsInKeywords];
    (split; [reflexivity | intros; lia]).
Qed.

(** X25 -- the score of an analyzed page is never below -4: the boosts
    only add, the missing date costs 2 at most, a product without version 1,
    a missing first header 1. *)
Theorem scorePage_score_bound
    (dateValue : string -> option Z) (now : Z) (pageDetails scored : PageDetails) :
  JS.truthyB (analyze pageDetails) = true ->
  scorePage dateValue now pageDetails = Returned scored ->
  exists n, pageScore scored = Some n /\ -4 <= n.
Proof.
  unfold scorePage. intros Ha. rewrite Ha.
  destruct (terms pageDetails) as [t|]; [|discriminate].
  intros H. injection H as <-. eexists. split; [reflexivity|].
  unfold scoreRules.
  pose proof (boostRules_grow pageDetails (headerWords pageDetails) (startScoring t))
    as (H1 & H2 & H3 & H4 & _).
  match goal with
  | |- _ <= score (headerRule _ (productRule _ (freshnessRule _ _ _ ?b))) =>
      destruct (lateRules_effect dateValue now pageDetails b) as [_ Hlate]
  end.
  cbn [startScoring score headerWordsInTitle headerWordsInDescription
         headerWordsInKeywords] in *.
  specialize (Hlate H2 H3 H4). lia.
Qed.

(** A page with a product, without version, date and first header, and
    with a title that is not among its terms has the score -4. *)
Lemma scorePage_score_bound_witness :
  exists n,
    pageScore
      (storeScore
         (readDocument (setStatusCode 200 (newPageDetails 0 "https://host/" true))
            {| docTitle := "Home"; metaDescription := None; metaKeywords := None;
               metaLastModified := None; metaProduct := Some "Suite";
               headerOneText := ""; anchors := [];
               docTerms := {| vocabulary := ["page"]; data0 := [2] |} |})
         {| wordList := [ {| term := "page"; frequency := 2 |} ];
            score := -4;
            analysis := "bad: no title words appear in body.; very bad: no description.; very bad: no keywords.; bad: page missing last-modified.; bad: page has product but missing version.; bad: page missing H1.";
            headerWordsInTitle := 0; headerWordsInDescription := 0;
            headerWordsInKeywords := 0 |}) = Some n /\
    -4 <= n.
Proof.
  apply (scorePage_score_bound sampleDates 0
           (readDocument (setStatusCode 200 (newPageDetails 0 "https://host/" true))
              {| docTitle := "Home"; metaDescription := None; metaKeywords := None;
                 metaLastModified := None; metaProduct := Some "Suite";
                 headerOneText := ""; anchors := [];
                 docTerms := {| vocabulary := ["page"]; data0 := [2] |} |})).
  - reflexivity.
  - reflexivity.
Defined.

(** X26 -- [scorePage] stores the word list in the order of the first
    sort: the boosts change no term, move no entry and lower no frequency,
    and the list is not sorted again. *)
Theorem scorePage_keeps_terms
    (dateValue : string -> option Z) (now : Z) (pageDetails scored : PageDetails)
    (t : DocumentTermMatrix) :
  JS.truthyB (analyze pageDetails) = true ->
  terms pageDetails = Some t ->
  scorePage dateValue now pageDetails = Returned scored ->
  exists l,
    wordFrequencyList scored = Some l /\
    map term l = map term (sortWordsByFrequency (vocabulary t) (data0 t)) /\
    Forall2 (fun a b => term b = term a /\ frequency a <= frequency b)
      (sortWordsByFrequency (vocabulary t) (data0 t)) l.
Proof.
  unfold scorePage. intros Ha Ht. rewrite Ha, Ht.
  intros H. injection H as <-. eexists. split; [reflexivity|].
  unfold scoreRules.
  pose proof (boostRules_grow pageDetails (headerWords pageDetails) (startScoring t))
    as (_ & _ & _ & _ & Hkept).
  match goal with
  | |- context [headerRule _ (productRule _ (freshnessRule _ _ _ ?b))] =>
      destruct (lateRules_effect dateValue now pageDetails b) as [Hsame _]
  end.
  rewrite Hsame. cbn [startScoring wordList] in Hkept. split; [|exact Hkept].
  clear - Hkept. induction Hkept as [|a b l1 l2 [Hterm _] _ IH]; [reflexivity|].
  cbn [map]. now rewrite Hterm, IH.
Qed.

(** The title "Seo" boosts the least frequent term past the first; the
    stored list keeps the order of the sort, "page" before "seo". *)
Lemma scorePage_keeps_terms_witness :
  exists l,
    wordFrequencyList
      (storeScore
         (pageOf (plainDocument "Seo" None "" [] ["seo"; "page"] [2; 3]))
         (scoreRules sampleDates 0
            (pageOf (plainDocument "Seo" None "" [] ["seo"; "page"] [2; 3]))
            (startScoring {| vocabulary := ["seo"; "page"]; data0 := [2; 3] |})))
    = Some l /\
    map term l = map term (sortWordsByFrequency ["seo"; "page"] [2; 3]) /\
    Forall2 (fun a b => term b = term a /\ frequency a <= frequency b)
      (sortWordsByFrequency ["seo"; "page"] [2; 3]) l.
Proof.
  apply (scorePage_keeps_terms sampleDates 0
           (pageOf (plainDocument "Seo" None "" [] ["seo"; "page"] [2; 3]))
           _ {| vocabulary := ["seo"; "page"]; data0 := [2; 3] |}).
  - reflexivity.
  - reflexivity.
  - reflexivity.
Defined.

(** ** Witnesses for the earlier lemmas *)

(** A page scored once and scored again. *)
Lemma scorePage_again_witness :
  scorePage sampleDates 1
    (storeScore (pageOf (plainDocument "Seo" None "" [] ["seo"] [2]))
       (scoreRules sampleDates 0 (pageOf (plainDocument "Seo" None "" [] ["seo"] [2]))
          (startScoring {| vocabulary := ["seo"]; data0 := [2] |})))
  = TypeError.
Proof.
  apply (scorePage_again sampleDates 0 1
           (pageOf (plainDocument "Seo" None "" [] ["seo"] [2]))).
  - reflexivity.
  - reflexivity.
Defined.


(** The link [https://other.com/index.html] on the crawl restricted to
    [/docs]. *)
Lemma cleanURL_out_of_scope_index_witness :
  cleanURL UrlParse.parse Path.dirname docsConfiguration 0
    (Some "https://other.com/index.html")
    "/docs/index.html" "https://host/docs/index.html" emptyCrawl
  = (None,
     snd (queueURLToCrawl docsConfiguration 0 "https://other.com/"
            "https://host/docs/index.html" false emptyCrawl)).
Proof.
  apply (cleanURL_out_of_scope_index UrlParse.parse Path.dirname docsConfiguration 0
           "https://other.com/index.html" "/docs/index.html"
           "https://host/docs/index.html" emptyCrawl).
  - simpl. lia.
  - reflexivity.
  - reflexivity.
  - reflexivity.
  - reflexivity.
  - reflexivity.
  - reflexivity.
Defined.

(** ** One boost word in any of the three blocks *)

(** One turn of the outer loop of a boost block, whatever the amount and
    the comparison, when exactly one entry has the compared word as term. *)
Lemma boostWord_one_match
    (amount : Z) (compared : string -> string) (headerOneWords : option (list string))
    (b : BoostState) (w : string) (l1 l2 : list WordFrequency) (e : WordFrequency) :
  bWords b = (l1 ++ e :: l2)%list ->
  term e = compared (JS.toLowerCase w) ->
  (forall x, In x (l1 ++ l2)%list -> term x <> compared (JS.toLowerCase w)) ->
  boostWord amount compared headerOneWords b w =
  {| bWords := (l1 ++ {| term := term e; frequency := frequency e + amount |} :: l2)%list;
     bScore := if frequency e >? 1 then bScore b + amount else bScore b;
     bCount := if frequency e >? 1 then bCount b + 1 else bCount b;
     bHeader := match headerOneWords with
                | Some hs => bHeader b + (if JS.includes hs (JS.toLowerCase w) then 1 else 0)
                | None => bHeader b
                end |}.
Proof.
  intros Hb He Hno. unfold boostWord. rewrite Hb.
  rewrite (boostTerms_one_match amount _ l1 e l2 _ _ He Hno). reflexivity.
Qed.

Lemma boostWords_last_match amount compared headerOneWords ws w b0 l1 l2 e :
  bWords (boostWords amount compared headerOneWords ws b0) = (l1 ++ e :: l2)%list ->
  term e = compared (JS.toLowerCase w) ->
  (forall x, In x (l1 ++ l2)%list -> term x <> compared (JS.toLowerCase w)) ->
  let b := boostWords amount compared headerOneWords ws b0 in
  let b' := boostWords amount compared headerOneWords (ws ++ [w])%list b0 in
  bWords b' = (l1 ++ {| term := term e; frequency := frequency e + amount |} :: l2)%list /\
  bScore b' = (if frequency e >? 1 then bScore b + amount else bScore b) /\
  bCount b' = (if frequency e >? 1 then bCount b + 1 else bCount b) /\
  bHeader b' = match headerOneWords with
               | Some hs => bHeader b + (if JS.includes hs (JS.toLowerCase w) then 1 else 0)
               | None => bHeader b
               end.
Proof.
  intros Hb He Hno b b'. subst b'. rewrite boostWords_last. fold b.
  rewrite (boostWord_one_match amount compared headerOneWords b w l1 l2 e Hb He Hno).
  cbn [bWords bScore bCount bHeader]. auto.
Qed.

(** X30 -- the three boost blocks of [scorePage] handle the last word of
    their field alike, the title and the description with the amount 2, the
    keywords with the amount 1 and after trimming.  Let the block have
    handled the words [ws] and reach the last word [w], and let exactly one
    entry [e] have the lower-cased (for keywords also trimmed) word as term.
    Then the block leaves the list with the frequency of [e] raised by its
    amount and nothing else changed, the score raised by the amount only if
    that frequency was above 1, and its own count of first-header words raised
    by 1 if the lower-cased, untrimmed word is a word of the first header;
    the two other counts are as they were. *)
Theorem boost_blocks_one_match
    (pageDetails : PageDetails) (headerOneWords : option (list string)) (s : Scoring)
    (ws : list string) (w : string) (l1 l2 : list WordFrequency) (e : WordFrequency) :
  let inHeader :=
    match headerOneWords with
    | Some hs => if JS.includes hs (JS.toLowerCase w) then 1 else 0
    | None => 0
    end in
  (JS.truthy (title pageDetails) = true ->
   JS.splitOn " " (text (title pageDetails)) = (ws ++ [w])%list ->
   let b := boostWords 2 (fun word => word) headerOneWords ws (startBoost s) in
   bWords b = (l1 ++ e :: l2)%list ->
   term e = JS.toLowerCase w ->
   (forall x, In x (l1 ++ l2)%list -> term x <> JS.toLowerCase w) ->
   let s' := titleRule pageDetails headerOneWords s in
   wordList s' = (l1 ++ {| term := term e; frequency := frequency e + 2 |} :: l2)%list /\
   score s' = (if frequency e >? 1 then bScore b + 2 else bScore b) /\
   headerWordsInTitle s' = headerWordsInTitle s + bHeader b + inHeader /\
   headerWordsInDescription s' = headerWordsInDescription s /\
   headerWordsInKeywords s' = headerWordsInKeywords s) /\
  (JS.truthy (description pageDetails) = true ->
   JS.splitOn " " (text (description pageDetails)) = (ws ++ [w])%list ->
   let b := boostWords 2 (fun word => word) headerOneWords ws (startBoost s) in
   bWords b = (l1 ++ e :: l2)%list ->
   term e = JS.toLowerCase w ->
   (forall x, In x (l1 ++ l2)%list -> term x <> JS.toLowerCase w) ->
   let s' := descriptionRule pageDetails headerOneWords s in
   wordList s' = (l1 ++ {| term := term e; frequency := frequency e + 2 |} :: l2)%list /\
   score s' = (if frequency e >? 1 then bScore b + 2 else bScore b) /\
   headerWordsInTitle s' = headerWordsInTitle s /\
   headerWordsInDescription s' = headerWordsInDescription s + bHeader b + inHeader /\
   headerWordsInKeywords s' = headerWordsInKeywords s) /\
  (JS.truthy (keywords pageDetails) = true ->
   JS.splitOn " " (JS.replaceFirst "," " " (text (keywords pageDetails))) = (ws ++ [w])%list ->
   let b := boostWords 1 JS.trim headerOneWords ws (startBoost s) in
   bWords b = (l1 ++ e :: l2)%list ->
   term e = JS.trim (JS.toLowerCase w) ->
   (forall x, In x (l1 ++ l2)%list -> term x <> JS.trim (JS.toLowerCase w)) ->
   let s' := keywordRule pageDetails headerOneWords s in
   wordList s' = (l1 ++ {| term := term e; frequency := frequency e + 1 |} :: l2)%list /\
   score s' = (if frequency e >? 1 then bScore b + 1 else bScore b) /\
   headerWordsInTitle s' = headerWordsInTitle s /\
   headerWordsInDescription s' = headerWordsInDescription s /\
   headerWordsInKeywords s' = headerWordsInKeywords s + bHeader b + inHeader).
Proof.
  intros inHeader. split; [|split].
  - intros Htruthy Hwords b Hb He Hno s'. subst s'. unfold titleRule.
    rewrite Htruthy. unfold JS.split_space. rewrite Hwords.
    destruct (boostWords_last_match 2 (fun word => word) headerOneWords ws w (startBoost s)
                l1 l2 e Hb He Hno) as (H1 & H2 & _ & H4).
    fold b in H2, H4.
    cbn [wordList score headerWordsInTitle headerWordsInDescription headerWordsInKeywords].
    rewrite H1, H2, H4. subst inHeader.
    repeat split; auto. destruct headerOneWords; lia.
  - intros Htruthy Hwords b Hb He Hno s'. subst s'. unfold descriptionRule.
    rewrite Htruthy. unfold JS.split_space. rewrite Hwords.
    destruct (boostWords_last_match 2 (fun word => word) headerOneWords ws w (startBoost s)
                l1 l2 e Hb He Hno) as (H1 & H2 & _ & H4).
    fold b in H2, H4.
    cbn [wordList score headerWordsInTitle headerWordsInDescription headerWordsInKeywords].
    rewrite H1, H2, H4. subst inHeader.
    repeat split; auto. destruct headerOneWords; lia.
  - intros Htruthy Hwords b Hb He Hno s'. subst s'. unfold keywordRule.
    rewrite Htruthy. unfold keywordWords, JS.split_space. rewrite Hwords.
    destruct (boostWords_last_match 1 JS.trim headerOneWords ws w (startBoost s)
                l1 l2 e Hb He Hno) as (H1 & H2 & _ & H4).
    fold b in H2, H4.
    cbn [wordList score headerWordsInTitle headerWordsInDescription headerWordsInKeywords].
    rewrite H1, H2, H4. subst inHeader.
    repeat split; auto. destruct headerOneWords; lia.
Qed.

(** The three blocks on a page whose title and description are "Seo" and
    whose keywords end in "Seo" behind a tab, each started on the sorted
    terms seo:2, web:1: the title and the description raise "seo" by 2 and
    the score by 2 and find the word in the first header; the keywords raise
    it by 1 and the score by 1, and the untrimmed word is not in the header. *)
Lemma boost_blocks_one_match_witness :
  let s := startScoring {| vocabulary := ["seo"; "web"]; data0 := [2; 1] |} in
  let h := headerWords boostedPage in
  (wordList (titleRule boostedPage h s)
   = [ {| term := "seo"; frequency := 4 |}; {| term := "web"; frequency := 1 |} ] /\
   score (titleRule boostedPage h s) = 2 /\
   headerWordsInTitle (titleRule boostedPage h s) = 1) /\
  (wordList (descriptionRule boostedPage h s)
   = [ {| term := "seo"; frequency := 4 |}; {| term := "web"; frequency := 1 |} ] /\
   score (descriptionRule boostedPage h s) = 2 /\
   headerWordsInDescription (descriptionRule boostedPage h s) = 1) /\
  (wordList (keywordRule boostedPage h s)
   = [ {| term := "seo"; frequency := 3 |}; {| term := "web"; frequency := 2 |} ] /\
   score (keywordRule boostedPage h s) = 1 /\
   headerWordsInKeywords (keywordRule boostedPage h s) = 0).
Proof.
  intros s h.
  destruct (boost_blocks_one_match boostedPage h s [] "Seo" []
              [ {| term := "web"; frequency := 1 |} ] {| term := "seo"; frequency := 2 |})
    as (Htitle & Hdescription & _).
  destruct (boost_blocks_one_match boostedPage h s ["web"] (String "009" "Seo") []
              [ {| term := "web"; frequency := 2 |} ] {| term := "seo"; frequency := 2 |})
    as (_ & _ & Hkeywords).
  assert (Hno : forall f x,
            In x ([] ++ [ {| term := "web"; frequency := f |} ])%list ->
            term x <> "seo"%string).
  { intros f x [<-|[]]. discriminate. }
  split; [|split].
  - destruct (Htitle eq_refl eq_refl eq_refl eq_refl (Hno 1)) as (H1 & H2 & H3 & _).
    exact (conj H1 (conj H2 H3)).
  - destruct (Hdescription eq_refl eq_refl eq_refl eq_refl (Hno 1)) as (H1 & H2 & _ & H4 & _).
    exact (conj H1 (conj H2 H4)).
  - destruct (Hkeywords eq_refl eq_refl eq_refl eq_refl (Hno 2)) as (H1 & H2 & _ & _ & H5).
    exact (conj H1 (conj H2 H5)).
Defined.
